(** * BedrockChat document ingestion: upload, split, extract, resolve

    A shallow embedding of the attachment pipeline of BedrockChat and the
    properties its specification states about it.

    - [Js]       : the few JavaScript / Python string primitives the code uses.
    - [Broker]   : the key-prefix guard of the document download route.
    - [Splitter] : the size-bounded PDF splitter.
    - [Ocr]      : the extraction job state machine.
    - [Resolver] : per-message attachment resolution.
    - [Frontend] : the upload path of the chat input
      (frontend/src/utils/s3Documents.ts and the InputChatContent component).
    - [Scenario] : concrete files, backends and messages.

    The backend modules (utils_pdf.py, utils_textract.py, usecases/chat.py)
    are described by the specification and the implementation summaries
    only; their models say so. *)

From Stdlib Require Import NArith ZArith QArith Lia Bool.
From stdpp Require Import base list strings.

Local Open Scope string_scope.
Local Open Scope list_scope.

(** ** String primitives *)

Module Js.

(** [s.startswith(p)] (Python) / [s.startsWith(p)] (JavaScript). *)
Fixpoint startswith (s p : string) {struct p} : bool :=
  match p, s with
  | EmptyString, _ => true
  | String c p', String d s' => if Ascii.eqb c d then startswith s' p' else false
  | String _ _, EmptyString => false
  end.

(** Drop the first [n] characters. *)
Fixpoint drop_chars (n : nat) (s : string) : string :=
  match n, s with
  | O, _ => s
  | S n', String _ s' => drop_chars n' s'
  | S _, EmptyString => EmptyString
  end.

(** [s.endsWith(x)]: [x] is as long as the tail of [s] it is compared with. *)
Definition endsWith (s x : string) : bool :=
  (String.length x <=? String.length s)%nat &&
  String.eqb (drop_chars (String.length s - String.length x) s) x.

(** [a || b] on strings that may be undefined: the empty string and
    [undefined] are falsy. *)
Definition truthy (v : option string) : bool :=
  match v with
  | None => false
  | Some EmptyString => false
  | Some (String _ _) => true
  end.

Definition or_else (v : option string) (d : string) : string :=
  match v with
  | Some (String c s) => String c s
  | _ => d
  end.

End Js.

(** ** Access broker: the download route's key guard *)

Module Broker.

(** The two key prefixes the download route accepts for a caller
    ([valid_prefixes] in backend/app/routes/conversation.py). *)
Definition valid_prefixes (user_id conversation_id : string) : list string :=
  [ "conversations/" +:+ user_id +:+ "/" +:+ conversation_id +:+ "/documents/";
    "conversations/" +:+ user_id +:+ "/temp/documents/" ].

(** [any(s3_key.startswith(prefix) for prefix in valid_prefixes)] *)
Definition key_allowed (user_id conversation_id s3_key : string) : bool :=
  existsb (fun prefix => Js.startswith s3_key prefix)
          (valid_prefixes user_id conversation_id).

Inductive outcome := AccessDenied | Granted.

(** Modelled from the spec: the body of the guard is not part of the
    quoted route; the spec says the request fails with AccessDenied when the
    guard [if not any(...)] fires and a handle is issued otherwise. *)
Definition IssueDownloadHandle (user_id conversation_id s3_key : string) : outcome :=
  if negb (key_allowed user_id conversation_id s3_key) then AccessDenied else Granted.

(** Modelled from the spec: the object key convention
    [{ownerId}/{scopeId}/documents/...] of stored documents, under the
    conversations/ namespace the download route checks; the upload route
    that builds the keys is not among the sources. *)
Definition object_key (user_id scope_id file_name : string) : string :=
  ("conversations/" +:+ user_id +:+ "/" +:+ scope_id +:+ "/documents/") +:+ file_name.

(** The prefixes as the specification words them: no leading namespace
    segment before the owner id. *)
Definition spec_prefixes (ownerId scopeId : string) : list string :=
  [ ownerId +:+ "/" +:+ scopeId +:+ "/documents/";
    ownerId +:+ "/temp/documents/" ].

End Broker.

(** ** PDF splitter *)

Module Splitter.

(** Modelled from the spec: backend/app/utils_pdf.py is not among the
    sources; this follows section 4.2 of the specification.
    A parsed document is the list of the serialized sizes of its pages, in
    page order; an unparseable one is [Corrupt]. *)
Inductive Document :=
  | Corrupt
  | Paginated (pageSizes : list N).

Inductive SplitError := CorruptDocument.

(** A chunk: its ordinal, its inclusive 1-based page range and its size. *)
Record SplitChunk := {
  ordinal : nat;
  pageStart : nat;
  pageEnd : nat;
  sizeBytes : N
}.

(** The pages a chunk holds, in order. *)
Definition chunk_pages (c : SplitChunk) : list nat :=
  seq (pageStart c) (S (pageEnd c) - pageStart c).

Definition pageCount (c : SplitChunk) : nat := length (chunk_pages c).

(** The chunk being accumulated: first and last page, running total. *)
Record Current := {
  firstPage : nat;
  lastPage : nat;
  total : N
}.

Definition start (page : nat) (size : N) : Current :=
  {| firstPage := page; lastPage := page; total := size |}.

Definition extend (cur : Current) (size : N) : Current :=
  {| firstPage := firstPage cur; lastPage := S (lastPage cur);
     total := (total cur + size)%N |}.

Definition close (ord : nat) (cur : Current) : SplitChunk :=
  {| ordinal := ord; pageStart := firstPage cur; pageEnd := lastPage cur;
     sizeBytes := total cur |}.

(** Modelled from the spec: "accumulate pages into the current chunk while
    the running total stays <= ceilingBytes; when adding the next page would
    exceed the ceiling, close the current chunk and start a new one with that
    page." The next page is the one after [lastPage cur]. *)
Fixpoint accumulate (ceilingBytes : N) (ord : nat) (cur : Current)
    (sizes : list N) : list SplitChunk :=
  match sizes with
  | [] => [close ord cur]
  | size :: rest =>
      if (total cur + size <=? ceilingBytes)%N
      then accumulate ceilingBytes ord (extend cur size) rest
      else close ord cur
           :: accumulate ceilingBytes (S ord) (start (S (lastPage cur)) size) rest
  end.

(** Modelled from the spec: [split_pdf_by_size] of backend/app/utils_pdf.py
    is not among the sources. The pages are taken in order, the first page
    opens the first chunk; a document without pages has no chunks. Ordinals
    and pages count from 1. *)
Definition split_pdf_by_size (ceilingBytes : N) (sizes : list N) : list SplitChunk :=
  match sizes with
  | [] => []
  | size :: rest => accumulate ceilingBytes 1 (start 1 size) rest
  end.

(** Modelled from the spec: [Split(reference, ceilingBytes)] fails with
    CorruptDocument when the source cannot be parsed as paginated content. *)
Definition Split (doc : Document) (ceilingBytes : N) : SplitError + list SplitChunk :=
  match doc with
  | Corrupt => inl CorruptDocument
  | Paginated sizes => inr (split_pdf_by_size ceilingBytes sizes)
  end.

(** Serialized size of page [p] (1-based) of a page list. *)
Definition page_size (sizes : list N) (p : nat) : option N :=
  match p with
  | O => None
  | S i => sizes !! i
  end.

Definition sum_sizes (sizes : list N) : N := fold_right N.add 0%N sizes.

(** Total size of [n] pages starting at page [p]. *)
Definition range_size (sizes : list N) (p n : nat) : N :=
  sum_sizes (take n (drop (p - 1) sizes)).

(** A chunk that holds exactly one page whose own size exceeds the ceiling. *)
Definition lone_oversized (ceilingBytes : N) (sizes : list N) (c : SplitChunk) : Prop :=
  pageStart c = pageEnd c /\
  page_size sizes (pageStart c) = Some (sizeBytes c) /\
  (ceilingBytes < sizeBytes c)%N.

(** What holds of every chunk cut from the page list [sizes]. *)
Definition chunk_ok (ceilingBytes : N) (sizes : list N) (c : SplitChunk) : Prop :=
  (1 <= pageStart c /\ pageStart c <= pageEnd c /\ pageEnd c <= length sizes)%nat /\
  sizeBytes c = range_size sizes (pageStart c) (pageCount c) /\
  ((sizeBytes c <= ceilingBytes)%N \/ pageStart c = pageEnd c).

End Splitter.

(** ** OCR extraction job *)

Module Ocr.

(** Modelled from the spec: backend/app/utils_textract.py is not among the
    sources; this follows the job model of section 3 and the state machine of
    section 4.3 (submit, then poll at a fixed interval under an overall
    wall-clock ceiling). *)
Inductive JobState := Submitted | Polling | Succeeded | Failed | TimedOut.

Inductive BlockKind := Line | Header | Paragraph | ListItem | Table.

Record ExtractionBlock := {
  kind : BlockKind;
  text : string;
  confidence : Q;
  pageNumber : nat;
  readingOrder : nat
}.

Record ExtractionJob := {
  id : string;
  targetReference : string;
  state : JobState;
  blocks : list ExtractionBlock
}.

(** What one status query of the remote analysis service answers. *)
Inductive RemoteStatus :=
  | InProgress
  | Done (result : list ExtractionBlock)
  | Error.

(** One poll: the injected clock's reading since submission, and the status. *)
Record Observation := {
  elapsed : N;
  status : RemoteStatus
}.

Definition is_terminal (s : JobState) : bool :=
  match s with
  | Succeeded | Failed | TimedOut => true
  | Submitted | Polling => false
  end.

Definition Submit (reference jobId : string) : ExtractionJob :=
  {| id := jobId; targetReference := reference; state := Submitted; blocks := [] |}.

Definition transition (j : ExtractionJob) (s : JobState)
    (bs : list ExtractionBlock) : ExtractionJob :=
  {| id := id j; targetReference := targetReference j; state := s; blocks := bs |}.

(** Modelled from the spec: [Submitted -> Polling -> {Succeeded | Failed |
    TimedOut}] (no reentry); polling continues while the status is in
    progress and stops with TimedOut once the ceiling is reached; blocks are
    populated only on Succeeded. *)
Definition step (timeout : N) (j : ExtractionJob) (o : Observation) : ExtractionJob :=
  match state j with
  | Submitted => transition j Polling []
  | Polling =>
      if (timeout <=? elapsed o)%N then transition j TimedOut []
      else match status o with
           | InProgress => j
           | Done result => transition j Succeeded result
           | Error => transition j Failed []
           end
  | Succeeded | Failed | TimedOut => j
  end.

Definition run (timeout : N) (j : ExtractionJob) (os : list Observation) : ExtractionJob :=
  fold_left (step timeout) os j.

Inductive ExtractionError := ExtractionFailed.

(** Modelled from the spec: Failed and TimedOut are surfaced uniformly as
    ExtractionFailed; a job still in flight has no result yet. *)
Definition surface (j : ExtractionJob) : option (ExtractionError + list ExtractionBlock) :=
  match state j with
  | Succeeded => Some (inr (blocks j))
  | Failed | TimedOut => Some (inl ExtractionFailed)
  | Submitted | Polling => None
  end.

End Ocr.

(** ** Attachment resolver *)

Module Resolver.

(** Modelled from the spec: backend/app/usecases/chat.py
    ([resolve_s3_attachments_in_messages]) is not among the sources; this
    follows sections 3, 4.4 and 7 of the specification. *)
Record ObjectReference := {
  storageKey : string;
  ownerId : string;
  scopeId : string;
  objectSize : N
}.

Inductive Origin :=
  | InlineBytes (bytes : string)
  | ObjectRef (reference : ObjectReference).

Record Attachment := {
  fileName : string;
  mediaType : string;
  sizeBytes : N;
  origin : Origin;
  requiresOcr : bool
}.

(** The three resolution paths, each with the data it needs. *)
Inductive Path :=
  | Inline (bytes : string)
  | ObjectBinary (reference : ObjectReference)
  | ObjectOCR (reference : ObjectReference).

(** A resolved content block: inline binary or text. *)
Inductive ContentBlock :=
  | BinaryBlock (fileName mediaType bytes : string)
  | TextBlock (fileName mediaType text : string).

Inductive ResolveError := ExtractionFailed | TransientIOError.

(** The OCR path is taken for a flagged attachment that is a PDF: the
    routing test quoted in the OCR implementation summary is
    [content.requires_ocr and content.file_name.endswith('.pdf')]. *)
Definition classify (a : Attachment) : Path :=
  match origin a with
  | InlineBytes bytes => Inline bytes
  | ObjectRef r =>
      if requiresOcr a && Js.endsWith (fileName a) ".pdf"
      then ObjectOCR r else ObjectBinary r
  end.

Section Resolve.

(** Reading an object through a download handle of the broker. *)
Variable fetch : ObjectReference -> ResolveError + string.
(** The OCR extractor: the rendered text, or ExtractionFailed. *)
Variable extract : ObjectReference -> ResolveError + string.

Definition resolve_path (a : Attachment) : ResolveError + ContentBlock :=
  match classify a with
  | Inline bytes => inr (BinaryBlock (fileName a) (mediaType a) bytes)
  | ObjectBinary r =>
      match fetch r with
      | inr bytes => inr (BinaryBlock (fileName a) (mediaType a) bytes)
      | inl e => inl e
      end
  | ObjectOCR r =>
      match extract r with
      | inr text => inr (TextBlock (fileName a) (mediaType a) text)
      | inl e => inl e
      end
  end.

(** Modelled from the spec: ExtractionFailed and TransientIOError are
    recovered locally, the offending attachment is dropped. *)
Definition resolve_one (a : Attachment) : option ContentBlock :=
  match resolve_path a with
  | inr block => Some block
  | inl _ => None
  end.

(** The task of attachment [i] completes: its result goes to slot [i]. *)
Definition complete (attachments : list Attachment)
    (slots : list (option ContentBlock)) (i : nat) : list (option ContentBlock) :=
  match attachments !! i with
  | Some a => <[i := resolve_one a]> slots
  | None => slots
  end.

(** Modelled from the spec: fan-out and ordered join. The tasks complete in
    the order [completion]; results are collected in a slot array indexed by
    original position, then compacted keeping the relative order. *)
Definition Resolve (completion : list nat) (attachments : list Attachment)
    : list ContentBlock :=
  omap id (fold_left (complete attachments) completion
                     (replicate (length attachments) None)).

End Resolve.

End Resolver.

(** ** Frontend: S3 document utilities and the chat input component *)

Module Frontend.

(** Browser [File]: the three properties the upload path reads. *)
Module File.
Record t := { name : string; type : string; size : N }.
End File.

(** *** Wire interfaces of frontend/src/utils/s3Documents.ts *)

Record DocumentUploadRequest := {
  filename : string;
  content_type : string;
  file_size : N
}.

Record DocumentUploadResponse := {
  uploadUrl : string;
  s3Key : string;
  expiresIn : N
}.

(** [max_size_mb?: number] is optional. *)
Record PDFSplitRequest := {
  s3_key : string;
  max_size_mb : option Q
}.

(** An entry of [PDFSplitResponse.chunks]. The interface declares the first
    five properties; [fileName] is the one more property that
    [handleLargeFileUpload] reads from each entry. *)
Module Chunk.
Record t := {
  chunkIndex : N;
  s3Key : string;
  pageCount : N;
  sizeBytes : N;
  base64Content : string;
  fileName : string
}.
End Chunk.

Record PDFSplitResponse := {
  chunks : list Chunk.t;
  totalChunks : N
}.

(** *** Component state (the zustand store of InputChatContent) *)

Module AttachedFile.
Record t := { name : string; type : string; size : N; content : string }.
End AttachedFile.

Module S3AttachedFile.
Record t := { name : string; type : string; size : N; s3Key : string }.
End S3AttachedFile.

(** Snackbar messages, by translation key and parameters. *)
Inductive Message :=
  | FileSizeExceeded (maxSizeMB : Q)      (* error.attachment.fileSizeExceeded *)
  | FileCountExceeded (maxCount : nat)    (* error.attachment.fileCountExceeded *)
  | UnsupportedFileFormat                 (* error.unsupportedFileFormat *)
  | FileUploadFailed                      (* error.fileUploadFailed *)
  | PdfSplit (chunks : N).                (* info.pdfSplit *)

(** *** Network *)

Inductive Body :=
  | UploadJson (request : DocumentUploadRequest)
  | SplitJson (request : PDFSplitRequest)
  | FileBody (file : File.t).

(** One [fetch] call as issued. *)
Record Call := {
  url : string;
  method : string;
  headers : list (string * string);
  body : Body
}.

(** How a [fetch] followed by [response.json()] ends. *)
Inductive Fetched (T : Type) :=
  | Rejects (reason : string)       (* the promise rejects *)
  | NotOk (statusText : string)     (* [response.ok] is false *)
  | Ok (json : T).
Arguments Rejects {T} reason.
Arguments NotOk {T} statusText.
Arguments Ok {T} json.

Inductive Exn := JsError (message : string).

(** Store, snackbar history and the log of network calls. *)
Record State := {
  base64EncodedImages : list string;
  attachedFiles : list AttachedFile.t;
  s3AttachedFiles : list S3AttachedFile.t;
  snackbar : list Message;
  calls : list Call
}.

(** What lies outside the component: the build-time endpoint, the auth
    session, and the servers' answers. Each answer may depend on every call
    issued so far, the current one last. *)
Record Env := {
  VITE_APP_API_ENDPOINT : option string;
  fetchAuthSession : list Call -> Exn + option string;
  answer_upload : list Call -> Fetched DocumentUploadResponse;
  answer_put : list Call -> Fetched unit;
  answer_split : list Call -> Fetched PDFSplitResponse
}.

(** Constants of frontend/src/constants/supportedAttachedFiles (not among
    the sources). *)
Record Constants := {
  SUPPORTED_FILE_EXTENSIONS : list string;
  MAX_ATTACHED_FILES : nat;
  MAX_SUPPORTED_FILE_SIZE_BYTES : N;
  MAX_SUPPORTED_FILE_SIZE_MB : Q;
  BEDROCK_MAX_FILE_SIZE_BYTES : N;
  BEDROCK_MAX_FILE_SIZE_MB : Q
}.

Record Props := {
  conversationId : option string
}.

(** *** A state and exception monad: mutations made before a throw stay. *)

Definition M (A : Type) : Type := State -> (Exn + A) * State.

Definition ret {A} (a : A) : M A := fun st => (inr a, st).

Definition bind {A B} (m : M A) (k : A -> M B) : M B :=
  fun st =>
    match m st with
    | (inr a, st') => k a st'
    | (inl e, st') => (inl e, st')
    end.

Definition throw {A} (e : Exn) : M A := fun st => (inl e, st).

Definition try_catch {A} (m : M A) (handler : Exn -> M A) : M A :=
  fun st =>
    match m st with
    | (inl e, st') => handler e st'
    | r => r
    end.

Definition gets {A} (f : State -> A) : M A := fun st => (inr (f st), st).

Definition modify (f : State -> State) : M unit := fun st => (inr tt, f st).

Notation "x <- m ;; k" := (bind m (fun x => k))
  (at level 100, m at next level, right associativity).
Notation "m ;; k" := (bind m (fun _ => k))
  (at level 100, right associativity).

(** [array.forEach(f)] *)
Fixpoint forEach {A} (l : list A) (f : A -> M unit) : M unit :=
  match l with
  | [] => ret tt
  | x :: rest => f x ;; forEach rest f
  end.

(** *** Store actions and snackbar *)

Definition pushS3File (file : S3AttachedFile.t) : M unit :=
  modify (fun st =>
    {| base64EncodedImages := base64EncodedImages st;
       attachedFiles := attachedFiles st;
       s3AttachedFiles := s3AttachedFiles st ++ [file];
       snackbar := snackbar st;
       calls := calls st |}).

Definition open (msg : Message) : M unit :=
  modify (fun st =>
    {| base64EncodedImages := base64EncodedImages st;
       attachedFiles := attachedFiles st;
       s3AttachedFiles := s3AttachedFiles st;
       snackbar := snackbar st ++ [msg];
       calls := calls st |}).

Definition log_call (c : Call) : M unit :=
  modify (fun st =>
    {| base64EncodedImages := base64EncodedImages st;
       attachedFiles := attachedFiles st;
       s3AttachedFiles := s3AttachedFiles st;
       snackbar := snackbar st;
       calls := calls st ++ [c] |}).

Section S3Documents.

Variable env : Env.

Definition getApiBaseUrl : string :=
  Js.or_else (VITE_APP_API_ENDPOINT env) EmptyString.

Definition getAuthHeaders : M (list (string * string)) :=
  history <- gets calls ;;
  match fetchAuthSession env history with
  | inl e => throw e
  | inr idToken =>
      ret (("Content-Type", "application/json")
           :: match idToken with
              | Some token => [("Authorization", "Bearer " +:+ token)]
              | None => []
              end)
  end.

(** [fetch(...)], then the [response.ok] test with the given error text,
    then [response.json()]. *)
Definition fetch_json {T} (c : Call) (answer : list Call -> Fetched T)
    (failure : string) : M T :=
  log_call c ;;
  history <- gets calls ;;
  match answer history with
  | Rejects reason => throw (JsError reason)
  | NotOk statusText => throw (JsError (failure +:+ statusText))
  | Ok json => ret json
  end.

Definition upload_url (conversationId : string) : string :=
  getApiBaseUrl +:+ "/conversation/" +:+ conversationId +:+ "/documents/upload".

Definition split_url (conversationId : string) : string :=
  getApiBaseUrl +:+ "/conversation/" +:+ conversationId +:+ "/documents/split-pdf".

Definition getDocumentUploadUrl (conversationId : string)
    (uploadRequest : DocumentUploadRequest) : M DocumentUploadResponse :=
  headers <- getAuthHeaders ;;
  fetch_json {| url := upload_url conversationId; method := "POST";
                headers := headers; body := UploadJson uploadRequest |}
             (answer_upload env) "Failed to get upload URL: ".

Definition uploadFileToS3 (uploadUrl : string) (file : File.t) : M unit :=
  fetch_json {| url := uploadUrl; method := "PUT";
                headers := [("Content-Type", File.type file)];
                body := FileBody file |}
             (answer_put env) "Failed to upload file: ".

Definition splitPDF (conversationId : string) (splitRequest : PDFSplitRequest)
    : M PDFSplitResponse :=
  headers <- getAuthHeaders ;;
  fetch_json {| url := split_url conversationId; method := "POST";
                headers := headers; body := SplitJson splitRequest |}
             (answer_split env) "Failed to split PDF: ".

End S3Documents.

(** *** InputChatContent *)

Section InputChatContent.

Variable K : Constants.
Variable env : Env.
Variable props : Props.
(** [acceptMediaType] from [useModel()]. *)
Variable acceptMediaType : list string.

(** Runs one file through the upload path as if nothing else touched the
    store meanwhile. The dynamic import of the utilities is taken to
    resolve; [console.error] leaves no trace in the state. *)
Definition handleLargeFileUpload (file : File.t) (shouldSplit : bool) : M unit :=
  try_catch
    (if shouldSplit then
       (* Upload original PDF first *)
       uploadResponse <-
         getDocumentUploadUrl env (Js.or_else (conversationId props) "temp")
           {| filename := File.name file;
              content_type := File.type file;
              file_size := File.size file |} ;;
       uploadFileToS3 env (uploadUrl uploadResponse) file ;;
       (* Split the PDF *)
       splitResponse <-
         splitPDF env (Js.or_else (conversationId props) "temp")
           {| s3_key := s3Key uploadResponse;
              max_size_mb := Some (BEDROCK_MAX_FILE_SIZE_MB K) |} ;;
       (* Add each chunk as S3 attachment *)
       forEach (chunks splitResponse) (fun chunk =>
         pushS3File {| S3AttachedFile.name := Chunk.fileName chunk;
                       S3AttachedFile.type := File.type file;
                       S3AttachedFile.size := Chunk.sizeBytes chunk;
                       S3AttachedFile.s3Key := Chunk.s3Key chunk |}) ;;
       open (PdfSplit (totalChunks splitResponse))
     else
       uploadResponse <-
         getDocumentUploadUrl env (Js.or_else (conversationId props) "temp")
           {| filename := File.name file;
              content_type := File.type file;
              file_size := File.size file |} ;;
       uploadFileToS3 env (uploadUrl uploadResponse) file ;;
       pushS3File {| S3AttachedFile.name := File.name file;
                     S3AttachedFile.type := File.type file;
                     S3AttachedFile.size := File.size file;
                     S3AttachedFile.s3Key := s3Key uploadResponse |})
    (fun error => open FileUploadFailed).

Definition handleAttachedFileRead (file : File.t) : M unit :=
  (* Check maximum supported file size *)
  if (MAX_SUPPORTED_FILE_SIZE_BYTES K <? File.size file)%N then
    open (FileSizeExceeded (MAX_SUPPORTED_FILE_SIZE_MB K))
  else
    (* Check if PDF should be split *)
    let shouldSplitPDF :=
      String.eqb (File.type file) "application/pdf"
      && (BEDROCK_MAX_FILE_SIZE_BYTES K <? File.size file)%N in
    (* Always use S3 storage *)
    handleLargeFileUpload file shouldSplitPDF.

(** [SUPPORTED_FILE_EXTENSIONS.some((extension) => name.endsWith(extension))] *)
Definition has_supported_extension (name : string) : bool :=
  existsb (fun extension => Js.endsWith name extension) (SUPPORTED_FILE_EXTENSIONS K).

Definition has_accepted_media_type (name : string) : bool :=
  existsb (fun extension => Js.endsWith name extension) acceptMediaType.

(** What a call of [handleAttachedFileRead] does before its first [await],
    that is, before a caller that does not await it goes on: the size check
    and, for a file over the limit, the message and the return. For a file
    within the limit the call of [handleLargeFileUpload] stops at its dynamic
    import, the store and the network untouched. *)
Definition handleAttachedFileRead_until_await (file : File.t) : M unit :=
  if (MAX_SUPPORTED_FILE_SIZE_BYTES K <? File.size file)%N then
    open (FileSizeExceeded (MAX_SUPPORTED_FILE_SIZE_MB K))
  else ret tt.

(** The rest of that call, which runs once the import has resolved: nothing
    for a file over the limit, the upload otherwise. *)
Definition handleAttachedFileRead_after_await (file : File.t) : M unit :=
  if (MAX_SUPPORTED_FILE_SIZE_BYTES K <? File.size file)%N then ret tt
  else
    handleLargeFileUpload file
      (String.eqb (File.type file) "application/pdf"
       && (BEDROCK_MAX_FILE_SIZE_BYTES K <? File.size file)%N).

(** The handlers [onChangeFile] calls. It awaits neither: when it returns,
    each has run up to its first [await] ([encodeAndPushImage] up to the
    start of the read, without touching the store). *)
Inductive Started :=
  | HandleAttachedFileRead (file : File.t)
  | EncodeAndPushImage (file : File.t).

(** The second loop of [onChangeFile]. *)
Fixpoint dispatch (fileList : list File.t) : M (list Started) :=
  match fileList with
  | [] => ret []
  | file :: rest =>
      if has_supported_extension (File.name file) then
        handleAttachedFileRead_until_await file ;;
        started <- dispatch rest ;;
        ret (HandleAttachedFileRead file :: started)
      else if has_accepted_media_type (File.name file) then
        started <- dispatch rest ;;
        ret (EncodeAndPushImage file :: started)
      else
        open UnsupportedFileFormat ;;
        dispatch rest
  end.

Definition onChangeFile (fileList : list File.t) : M (list Started) :=
  (* Check if the total number of attached files exceeds the limit *)
  currentAttachedFiles <- gets attachedFiles ;;
  currentS3AttachedFiles <- gets s3AttachedFiles ;;
  let currentAttachedFilesCount :=
    (length (List.filter (fun file => has_supported_extension (AttachedFile.name file))
                         currentAttachedFiles)
     + length currentS3AttachedFiles)%nat in
  (* first loop: count the selected files with a supported extension *)
  let newAttachedFilesCount :=
    length (List.filter (fun file => has_supported_extension (File.name file)) fileList) in
  if (MAX_ATTACHED_FILES K <? currentAttachedFilesCount + newAttachedFilesCount)%nat then
    open (FileCountExceeded (MAX_ATTACHED_FILES K)) ;;
    ret []
  else
    dispatch fileList.

(** Where the second loop sends a selected file: to the upload path, to the
    image path, or nowhere (unsupported format). *)
Definition route (file : File.t) : option Started :=
  if has_supported_extension (File.name file) then Some (HandleAttachedFileRead file)
  else if has_accepted_media_type (File.name file) then Some (EncodeAndPushImage file)
  else None.

(** The attachment part of the state is the same in both states. *)
Definition same_attachments (st st' : State) : Prop :=
  base64EncodedImages st' = base64EncodedImages st /\
  attachedFiles st' = attachedFiles st /\
  s3AttachedFiles st' = s3AttachedFiles st.

(** The S3 attachment pushed for a chunk of the split of [file]. *)
Definition chunk_attachment (file : File.t) (chunk : Chunk.t) : S3AttachedFile.t :=
  {| S3AttachedFile.name := Chunk.fileName chunk;
     S3AttachedFile.type := File.type file;
     S3AttachedFile.size := Chunk.sizeBytes chunk;
     S3AttachedFile.s3Key := Chunk.s3Key chunk |}.

(** The shape of the calls the upload path of [file] can issue: the request
    for an upload handle, the upload itself, the split request. *)
Definition issued_for (file : File.t) (c : Call) : Prop :=
  (method c = "POST" /\
   url c = upload_url env (Js.or_else (conversationId props) "temp") /\
   body c = UploadJson {| filename := File.name file;
                          content_type := File.type file;
                          file_size := File.size file |}) \/
  (method c = "PUT" /\ body c = FileBody file) \/
  (method c = "POST" /\
   url c = split_url env (Js.or_else (conversationId props) "temp") /\
   exists key, body c = SplitJson {| s3_key := key;
                                     max_size_mb := Some (BEDROCK_MAX_FILE_SIZE_MB K) |}).

End InputChatContent.

End Frontend.

(** ** Concrete scenarios *)

Module Scenario.

Import Frontend.

(** The two size limits are the documented ones (4.5 MB for one document of
    a model call, 22 MB at most per file); the extension list and the file
    count are sample values. *)
Definition constants : Constants :=
  {| SUPPORTED_FILE_EXTENSIONS := [".pdf"; ".txt"; ".md"; ".csv"; ".docx"];
     MAX_ATTACHED_FILES := 5;
     MAX_SUPPORTED_FILE_SIZE_BYTES := 23068672;
     MAX_SUPPORTED_FILE_SIZE_MB := 22;
     BEDROCK_MAX_FILE_SIZE_BYTES := 4718592;
     BEDROCK_MAX_FILE_SIZE_MB := 9 # 2 |}.

Definition acceptMediaType : list string := [".png"; ".jpeg"; ".gif"; ".webp"].

Definition chunk1 : Chunk.t :=
  {| Chunk.chunkIndex := 0;
     Chunk.s3Key := "conversations/u1/temp/documents/big_part1.pdf";
     Chunk.pageCount := 3;
     Chunk.sizeBytes := 4000000;
     Chunk.base64Content := "JVBERi0x";
     Chunk.fileName := "big_part1.pdf" |}.

Definition chunk2 : Chunk.t :=
  {| Chunk.chunkIndex := 1;
     Chunk.s3Key := "conversations/u1/temp/documents/big_part2.pdf";
     Chunk.pageCount := 2;
     Chunk.sizeBytes := 3000000;
     Chunk.base64Content := "JVBERi0y";
     Chunk.fileName := "big_part2.pdf" |}.

(** As [chunk1] but for its content. *)
Definition chunk1' : Chunk.t :=
  {| Chunk.chunkIndex := 0;
     Chunk.s3Key := "conversations/u1/temp/documents/big_part1.pdf";
     Chunk.pageCount := 3;
     Chunk.sizeBytes := 4000000;
     Chunk.base64Content := "JVBERi0z";
     Chunk.fileName := "big_part1.pdf" |}.

(** A backend that answers every request. *)
Definition env : Env :=
  {| VITE_APP_API_ENDPOINT := Some "https://api.example";
     fetchAuthSession := fun _ => inr (Some "jwt");
     answer_upload := fun _ =>
       Ok {| uploadUrl := "https://bucket.example/put";
             s3Key := "conversations/u1/temp/documents/big.pdf";
             expiresIn := 3600 |};
     answer_put := fun _ => Ok tt;
     answer_split := fun _ => Ok {| chunks := [chunk1; chunk2]; totalChunks := 2 |} |}.

(** A backend that refuses to issue upload handles. *)
Definition refusing_env : Env :=
  {| VITE_APP_API_ENDPOINT := Some "https://api.example";
     fetchAuthSession := fun _ => inr (Some "jwt");
     answer_upload := fun _ => NotOk "Forbidden";
     answer_put := fun _ => Ok tt;
     answer_split := fun _ => Ok {| chunks := [chunk1; chunk2]; totalChunks := 2 |} |}.

Definition new_chat : Props := {| conversationId := None |}.
Definition in_conversation : Props := {| conversationId := Some "01HZX" |}.

Definition empty_state : State :=
  {| base64EncodedImages := []; attachedFiles := []; s3AttachedFiles := [];
     snackbar := []; calls := [] |}.

Definition big_pdf : File.t :=
  {| File.name := "big.pdf"; File.type := "application/pdf"; File.size := 7000000 |}.

Definition huge_pdf : File.t :=
  {| File.name := "huge.pdf"; File.type := "application/pdf"; File.size := 30000000 |}.

Definition notes : File.t :=
  {| File.name := "notes.txt"; File.type := "text/plain"; File.size := 1200 |}.

Definition photo : File.t :=
  {| File.name := "photo.png"; File.type := "image/png"; File.size := 50000 |}.

(** A store that already holds five S3 attachments. *)
Definition full_state : State :=
  {| base64EncodedImages := []; attachedFiles := [];
     s3AttachedFiles :=
       replicate 5 {| S3AttachedFile.name := "a.pdf";
                      S3AttachedFile.type := "application/pdf";
                      S3AttachedFile.size := 10;
                      S3AttachedFile.s3Key := "conversations/u1/temp/documents/a.pdf" |};
     snackbar := []; calls := [] |}.

(** A message with three stored attachments, the second flagged for OCR. *)
Definition reference (key : string) : Resolver.ObjectReference :=
  {| Resolver.storageKey := key; Resolver.ownerId := "u1";
     Resolver.scopeId := "c1"; Resolver.objectSize := 1000 |}.

Definition first : Resolver.Attachment :=
  {| Resolver.fileName := "a.pdf"; Resolver.mediaType := "application/pdf";
     Resolver.sizeBytes := 1000;
     Resolver.origin := Resolver.ObjectRef (reference "conversations/u1/c1/documents/a.pdf");
     Resolver.requiresOcr := false |}.

Definition second : Resolver.Attachment :=
  {| Resolver.fileName := "scan.pdf"; Resolver.mediaType := "application/pdf";
     Resolver.sizeBytes := 1000;
     Resolver.origin := Resolver.ObjectRef (reference "conversations/u1/c1/documents/scan.pdf");
     Resolver.requiresOcr := true |}.

Definition third : Resolver.Attachment :=
  {| Resolver.fileName := "c.txt"; Resolver.mediaType := "text/plain";
     Resolver.sizeBytes := 5;
     Resolver.origin := Resolver.InlineBytes "hello";
     Resolver.requiresOcr := false |}.

Definition fetch (r : Resolver.ObjectReference) : Resolver.ResolveError + string :=
  inr ("bytes of " +:+ Resolver.storageKey r).

(** Extraction fails for every object. *)
Definition extract (r : Resolver.ObjectReference) : Resolver.ResolveError + string :=
  inl Resolver.ExtractionFailed.

(** A job that is polled twice before the service reports success. *)
Definition block : Ocr.ExtractionBlock :=
  {| Ocr.kind := Ocr.Line; Ocr.text := "Invoice"; Ocr.confidence := 72 # 100;
     Ocr.pageNumber := 1; Ocr.readingOrder := 1 |}.

Definition poll (t : N) (s : Ocr.RemoteStatus) : Ocr.Observation :=
  {| Ocr.elapsed := t; Ocr.status := s |}.

Definition polls : list Ocr.Observation :=
  [poll 0 Ocr.InProgress; poll 5 Ocr.InProgress; poll 10 (Ocr.Done [block])].

Definition later_polls : list Ocr.Observation :=
  [poll 15 Ocr.Error; poll 400 Ocr.InProgress].

End Scenario.

(** ** The rest of the store of InputChatContent *)

Module Store.

Import Frontend.

(** [array.splice(index, 1)] for an integer [index]: a negative index counts
    from the end and is clamped at the first element, an index past the end
    removes nothing. *)
Definition splice1 {A} (index : Z) (l : list A) : list A :=
  let len := Z.of_nat (length l) in
  let start := if (index <? 0)%Z then Z.max (len + index) 0 else Z.min index len in
  take (Z.to_nat start) l ++ drop (S (Z.to_nat start)) l.

Definition pushBase64EncodedImage (encodedImage : string) : M unit :=
  modify (fun st =>
    {| base64EncodedImages := base64EncodedImages st ++ [encodedImage];
       attachedFiles := attachedFiles st;
       s3AttachedFiles := s3AttachedFiles st;
       snackbar := snackbar st;
       calls := calls st |}).

Definition removeBase64EncodedImage (index : Z) : M unit :=
  modify (fun st =>
    {| base64EncodedImages := splice1 index (base64EncodedImages st);
       attachedFiles := attachedFiles st;
       s3AttachedFiles := s3AttachedFiles st;
       snackbar := snackbar st;
       calls := calls st |}).

Definition clearBase64EncodedImages : M unit :=
  modify (fun st =>
    {| base64EncodedImages := [];
       attachedFiles := attachedFiles st;
       s3AttachedFiles := s3AttachedFiles st;
       snackbar := snackbar st;
       calls := calls st |}).

Definition pushTextFile (file : AttachedFile.t) : M unit :=
  modify (fun st =>
    {| base64EncodedImages := base64EncodedImages st;
       attachedFiles := attachedFiles st ++ [file];
       s3AttachedFiles := s3AttachedFiles st;
       snackbar := snackbar st;
       calls := calls st |}).

Definition removeTextFile (index : Z) : M unit :=
  modify (fun st =>
    {| base64EncodedImages := base64EncodedImages st;
       attachedFiles := splice1 index (attachedFiles st);
       s3AttachedFiles := s3AttachedFiles st;
       snackbar := snackbar st;
       calls := calls st |}).

Definition clearAttachedFiles : M unit :=
  modify (fun st =>
    {| base64EncodedImages := base64EncodedImages st;
       attachedFiles := [];
       s3AttachedFiles := s3AttachedFiles st;
       snackbar := snackbar st;
       calls := calls st |}).

Definition removeS3File (index : Z) : M unit :=
  modify (fun st =>
    {| base64EncodedImages := base64EncodedImages st;
       attachedFiles := attachedFiles st;
       s3AttachedFiles := splice1 index (s3AttachedFiles st);
       snackbar := snackbar st;
       calls := calls st |}).

Definition clearS3AttachedFiles : M unit :=
  modify (fun st =>
    {| base64EncodedImages := base64EncodedImages st;
       attachedFiles := attachedFiles st;
       s3AttachedFiles := [];
       snackbar := snackbar st;
       calls := calls st |}).

End Store.

(** ** Sending the message *)

Module Send.

Import Frontend.

(** The attachment objects [sendContent] builds ([AttachmentType] and
    [S3AttachmentType] of hooks/useChat). *)
Module AttachmentType.
Record t := { fileName : string; fileType : string; extractedContent : string }.
End AttachmentType.

Module S3AttachmentType.
Record t := { fileName : string; fileType : string; s3Key : string; fileSize : N }.
End S3AttachmentType.

(** The arguments of one [props.onSend] call; [None] is [undefined]. *)
Record Sent := {
  content : string;
  enableReasoning : bool;
  base64EncodedImages : option (list string);
  attachments : option (list AttachmentType.t);
  s3Attachments : option (list S3AttachmentType.t)
}.

Section SendContent.

(** [disabledImageUpload] from [useModel()]. *)
Variable disabledImageUpload : bool.
(** [props.reasoningEnabled], [props.disabledSend] and [props.onSend]. *)
Variable reasoningEnabled : bool.
Variable disabledSend : option bool.
Variable onSend : Sent -> M unit.

(** The arguments [sendContent] passes to [props.onSend], from the text
    typed so far and the lists of the store at the time of the call (the
    callback is rebuilt whenever they change). *)
Definition onSendArguments (content : string) (st : State) : Sent :=
  let attachments :=
    map (fun file => {| AttachmentType.fileName := AttachedFile.name file;
                        AttachmentType.fileType := AttachedFile.type file;
                        AttachmentType.extractedContent := AttachedFile.content file |})
        (Frontend.attachedFiles st) in
  let s3Attachments :=
    map (fun file => {| S3AttachmentType.fileName := S3AttachedFile.name file;
                        S3AttachmentType.fileType := S3AttachedFile.type file;
                        S3AttachmentType.s3Key := S3AttachedFile.s3Key file;
                        S3AttachmentType.fileSize := S3AttachedFile.size file |})
        (Frontend.s3AttachedFiles st) in
  {| content := content;
     enableReasoning := reasoningEnabled;
     base64EncodedImages :=
       if negb disabledImageUpload && (0 <? length (Frontend.base64EncodedImages st))%nat
       then Some (Frontend.base64EncodedImages st) else None;
     attachments :=
       if (0 <? length attachments)%nat then Some attachments else None;
     s3Attachments :=
       if (0 <? length s3Attachments)%nat then Some s3Attachments else None |}.

(** [sendContent]; it returns the text the input holds afterwards
    ([setContent('')]). *)
Definition sendContent (content : string) : M string :=
  sent <- gets (onSendArguments content) ;;
  onSend sent ;;
  Store.clearBase64EncodedImages ;;
  Store.clearAttachedFiles ;;
  Store.clearS3AttachedFiles ;;
  ret EmptyString.

(** [content === '' || props.disabledSend] *)
Definition isDisabledSend (content : string) : bool :=
  String.eqb content EmptyString
  || match disabledSend with Some b => b | None => false end.

(** [keypressListener]: whether the default action was prevented, and the
    text the input holds afterwards. *)
Definition keypressListener (key : string) (shiftKey : bool) (content : string)
    : M (bool * string) :=
  if String.eqb key "Enter" && negb shiftKey then
    if negb (isDisabledSend content) then
      content' <- sendContent content ;;
      ret (true, content')
    else ret (true, content)
  else ret (false, content).

End SendContent.

End Send.

(** ** File chooser *)

Module Chooser.

Import Frontend.

(** [extendedAcceptMediaType], the list the file chooser accepts. *)
Definition extendedAcceptMediaType (K : Constants) (acceptMediaType : list string)
    : list string :=
  acceptMediaType ++ SUPPORTED_FILE_EXTENSIONS K.

End Chooser.

(** ** The storage predicates of s3Documents.ts *)

(** The first version of the file, with the threshold written out:
    [4.5 * 1024 * 1024] is 4718592 exactly. *)
Module S3DocumentsV1.

Import Frontend.

Definition shouldUseS3Storage (fileSize : N) : bool :=
  (4718592 <? fileSize)%N.

Definition shouldSplitPDF (file : File.t) : bool :=
  String.eqb (File.type file) "application/pdf" && (4718592 <? File.size file)%N.

End S3DocumentsV1.

(** The second version, with the thresholds of
    constants/supportedAttachedFiles (not among the sources). *)
Module S3DocumentsV2.

Import Frontend.

Section Thresholds.

Variable S3_STORAGE_THRESHOLD_BYTES : N.
Variable MAX_FILE_SIZE_BYTES : N.

Definition shouldUseS3Storage (fileSize : N) : bool :=
  (S3_STORAGE_THRESHOLD_BYTES <? fileSize)%N.

Definition shouldSplitPDF (file : File.t) : bool :=
  String.eqb (File.type file) "application/pdf" && (MAX_FILE_SIZE_BYTES <? File.size file)%N.

End Thresholds.

End S3DocumentsV2.

(** ** Download URLs *)

Module Uri.

Import Stdlib.Strings.Ascii.
Import Frontend.

(** Strings stand for the UTF-8 bytes of the JavaScript string. On a
    well-formed string [encodeURIComponent] keeps the unreserved ASCII
    characters (letters, digits and [- _ . ! ~ * ' ( )]) and writes every
    other byte of the UTF-8 form as [%XX] with upper-case digits. *)
Definition uriUnreserved (c : Ascii.ascii) : bool :=
  let n := Ascii.N_of_ascii c in
  ((65 <=? n) && (n <=? 90)                      (* A-Z *)
   || (97 <=? n) && (n <=? 122)                  (* a-z *)
   || (48 <=? n) && (n <=? 57)                   (* 0-9 *)
   || existsb (N.eqb n) [45; 95; 46; 33; 126; 42; 39; 40; 41])%N.

Definition hexDigit (n : N) : Ascii.ascii :=
  if (n <? 10)%N then Ascii.ascii_of_N (48 + n) else Ascii.ascii_of_N (55 + n).

Definition percentEncode (c : Ascii.ascii) : string :=
  let n := Ascii.N_of_ascii c in
  String "%"%char (String (hexDigit (n / 16)) (String (hexDigit (n mod 16)) EmptyString)).

Fixpoint encodeURIComponent (s : string) : string :=
  match s with
  | EmptyString => EmptyString
  | String c rest =>
      if uriUnreserved c then String c (encodeURIComponent rest)
      else percentEncode c +:+ encodeURIComponent rest
  end.

(** The URL [getDocumentDownloadUrl] fetches (second version of the file,
    with the API base URL). *)
Definition download_url (env : Env) (conversationId s3Key : string) : string :=
  getApiBaseUrl env +:+ "/conversation/" +:+ conversationId +:+ "/documents/"
  +:+ encodeURIComponent s3Key +:+ "/download".

(** The characters of a string. *)
Definition chars (s : string) : list Ascii.ascii := String.list_ascii_of_string s.

End Uri.

(** ** The download route before and after the access fix *)

Module Route.

Import Stdlib.Strings.Ascii.

(** The guard the route had before the fix:
    [s3_key.startswith(f"conversations/{current_user.id}/{conversation_id}/")]. *)
Definition key_allowed_before (user_id conversation_id s3_key : string) : bool :=
  Js.startswith s3_key ("conversations/" +:+ user_id +:+ "/" +:+ conversation_id +:+ "/").

(** An identifier without a slash, as user and conversation ids are. *)
Definition no_slash (s : string) : bool :=
  forallb (fun c => negb (Ascii.eqb c "/"%char)) (String.list_ascii_of_string s).

End Route.

(** ** More concrete cases *)

Module Cases.

Import Frontend.

(** A store with one image, one regular attachment and two S3 attachments. *)
Definition loaded_state : State :=
  {| base64EncodedImages := ["data:image/png;base64,AAAA"];
     attachedFiles :=
       [ {| AttachedFile.name := "old.txt"; AttachedFile.type := "text/plain";
            AttachedFile.size := 5; AttachedFile.content := "aGVsbG8=" |} ];
     s3AttachedFiles :=
       [ {| S3AttachedFile.name := "a.pdf"; S3AttachedFile.type := "application/pdf";
            S3AttachedFile.size := 10;
            S3AttachedFile.s3Key := "conversations/u1/temp/documents/a.pdf" |};
         {| S3AttachedFile.name := "b.pdf"; S3AttachedFile.type := "application/pdf";
            S3AttachedFile.size := 20;
            S3AttachedFile.s3Key := "conversations/u1/temp/documents/b.pdf" |} ];
     snackbar := []; calls := [] |}.

(** An [onSend] that returns, and one that throws. *)
Definition onSend_ok (sent : Send.Sent) : M unit := ret tt.

Definition onSend_failing (sent : Send.Sent) : M unit :=
  throw (JsError "network down").

(** A backend reached without a session: fetching it throws. *)
Definition env_no_session : Env :=
  {| VITE_APP_API_ENDPOINT := Some "https://api.example";
     fetchAuthSession := fun _ => inl (JsError "not signed in");
     answer_upload := answer_upload Scenario.env;
     answer_put := answer_put Scenario.env;
     answer_split := answer_split Scenario.env |}.

Definition archive : File.t :=
  {| File.name := "archive.zip"; File.type := "application/zip"; File.size := 900 |}.

End Cases.

(** ** What a selection is answered with *)

Module Selection.

Import Frontend.

(** The file a handler was called with. *)
Definition file_of (s : Started) : File.t :=
  match s with
  | HandleAttachedFileRead file => file
  | EncodeAndPushImage file => file
  end.

(** Whether the name ends with an entry of the list the file chooser
    accepts. *)
Definition chooser_accepts (K : Constants) (acceptMediaType : list string)
    (file : File.t) : bool :=
  existsb (fun extension => Js.endsWith (File.name file) extension)
          (Chooser.extendedAcceptMediaType K acceptMediaType).

Definition is_unsupported_format (m : Message) : bool :=
  match m with
  | UnsupportedFileFormat => true
  | _ => false
  end.

(** The message a selected file has been answered with when [onChangeFile]
    returns, if any: the size error for a document over the maximum
    supported size, the format error for a file that is neither a document
    nor an accepted image. *)
Definition answered (K : Constants) (acceptMediaType : list string)
    (file : File.t) : option Message :=
  if has_supported_extension K (File.name file) then
    if (MAX_SUPPORTED_FILE_SIZE_BYTES K <? File.size file)%N
    then Some (FileSizeExceeded (MAX_SUPPORTED_FILE_SIZE_MB K))
    else None
  else if has_accepted_media_type acceptMediaType (File.name file) then None
  else Some UnsupportedFileFormat.

End Selection.

(** * Properties *)

(** ** String primitives *)

Lemma startswith_app (p t : string) : Js.startswith (p +:+ t) p = true.
Proof.
  induction p as [|c p IH]; simpl; [reflexivity|].
  rewrite Ascii.eqb_refl. exact IH.
Qed.

Lemma startswith_inv (s p : string) :
  Js.startswith s p = true -> exists t, s = p +:+ t.
Proof.
  revert s. induction p as [|c p IH]; intros s H; simpl in *.
  - exists s. reflexivity.
  - destruct s as [|d s]; [discriminate|].
    destruct (Ascii.eqb c d) eqn:E; [|discriminate].
    apply Ascii.eqb_eq in E. subst d.
    destruct (IH _ H) as [t ->]. exists t. reflexivity.
Qed.

Lemma startswith_iff (s p : string) :
  Js.startswith s p = true <-> exists t, s = p +:+ t.
Proof.
  split; [apply startswith_inv|]. intros [t ->]. apply startswith_app.
Qed.


Lemma drop_chars_app (t x : string) : Js.drop_chars (String.length t) (t +:+ x) = x.
Proof. induction t as [|c t IH]; simpl; [reflexivity|exact IH]. Qed.

Lemma length_app_string (t x : string) :
  String.length (t +:+ x) = (String.length t + String.length x)%nat.
Proof. induction t as [|c t IH]; simpl; [reflexivity|]. rewrite IH. reflexivity. Qed.

Lemma drop_chars_split (n : nat) (s : string) :
  (n <= String.length s)%nat ->
  exists t, s = t +:+ Js.drop_chars n s /\ String.length t = n.
Proof.
  revert s. induction n as [|n IH]; intros s Hn.
  - exists EmptyString. split; reflexivity.
  - destruct s as [|c s]; simpl in Hn; [lia|].
    destruct (IH s) as [t [Ht Hlen]]; [lia|].
    exists (String c t). split; [|simpl; f_equal; exact Hlen].
    change (String c s = String c (t +:+ Js.drop_chars n s)).
    f_equal. exact Ht.
Qed.

(** [endsWith] holds exactly of the strings that end with the given one. *)
Lemma endsWith_iff (s x : string) :
  Js.endsWith s x = true <-> exists t, s = t +:+ x.
Proof.
  unfold Js.endsWith. rewrite andb_true_iff, Nat.leb_le, String.eqb_eq. split.
  - intros [Hlen Hdrop].
    destruct (drop_chars_split (String.length s - String.length x) s) as [t [Ht _]]; [lia|].
    exists t. rewrite Hdrop in Ht. exact Ht.
  - intros [t ->]. rewrite length_app_string. split; [lia|].
    replace (String.length t + String.length x - String.length x)%nat
      with (String.length t) by lia.
    apply drop_chars_app.
Qed.

(** ** Access broker *)

Lemma key_allowed_iff (user_id conversation_id s3_key : string) :
  Broker.key_allowed user_id conversation_id s3_key = true <->
  (exists rest, s3_key = ("conversations/" +:+ user_id +:+ "/" +:+ conversation_id
                          +:+ "/documents/") +:+ rest) \/
  (exists rest, s3_key = ("conversations/" +:+ user_id +:+ "/temp/documents/") +:+ rest).
Proof.
  unfold Broker.key_allowed, Broker.valid_prefixes. cbn [existsb].
  rewrite orb_false_r, orb_true_iff, !startswith_iff. reflexivity.
Qed.

Lemma download_allowed (user_id conversation_id s3_key : string) :
  (exists rest, s3_key = ("conversations/" +:+ user_id +:+ "/" +:+ conversation_id
                          +:+ "/documents/") +:+ rest) \/
  (exists rest, s3_key = ("conversations/" +:+ user_id +:+ "/temp/documents/") +:+ rest) ->
  Broker.IssueDownloadHandle user_id conversation_id s3_key = Broker.Granted.
Proof.
  intros H. apply key_allowed_iff in H. unfold Broker.IssueDownloadHandle.
  rewrite H. reflexivity.
Qed.

(** C1 (amended): a download-handle request is granted exactly when the key
    begins with conversations/{user}/{conversation}/documents/ or with
    conversations/{user}/temp/documents/, and fails with AccessDenied
    otherwise. *)
Theorem download_guard (user_id conversation_id s3_key : string) :
  let in_scope :=
    (exists rest, s3_key = ("conversations/" +:+ user_id +:+ "/" +:+ conversation_id
                            +:+ "/documents/") +:+ rest) \/
    (exists rest, s3_key = ("conversations/" +:+ user_id +:+ "/temp/documents/") +:+ rest) in
  (in_scope <-> Broker.IssueDownloadHandle user_id conversation_id s3_key = Broker.Granted) /\
  (~ in_scope <-> Broker.IssueDownloadHandle user_id conversation_id s3_key = Broker.AccessDenied).
Proof.
  cbv zeta. rewrite <- key_allowed_iff. unfold Broker.IssueDownloadHandle.
  destruct (Broker.key_allowed user_id conversation_id s3_key); simpl; split; split;
    intros H; try reflexivity; try discriminate; try congruence.
Qed.

(** A document uploaded under the temp scope stays reachable from every
    conversation of its owner, and a document of a conversation from that
    conversation. *)
Lemma uploaded_documents_reachable (user_id conversation_id file_name : string) :
  Broker.IssueDownloadHandle user_id conversation_id
    (Broker.object_key user_id "temp" file_name) = Broker.Granted /\
  Broker.IssueDownloadHandle user_id conversation_id
    (Broker.object_key user_id conversation_id file_name) = Broker.Granted.
Proof.
  split; apply download_allowed; unfold Broker.object_key.
  - right. exists file_name. reflexivity.
  - left. exists file_name. reflexivity.
Qed.

(** C1 as worded fails: a key under {ownerId}/{scopeId}/documents/, without
    the leading conversations/ segment, is denied. *)
Lemma download_guard_counterexample :
  Exists (fun prefix => Js.startswith "u1/c1/documents/report.pdf" prefix = true)
         (Broker.spec_prefixes "u1" "c1") /\
  Broker.IssueDownloadHandle "u1" "c1" "u1/c1/documents/report.pdf" = Broker.AccessDenied.
Proof. split; [left; reflexivity | reflexivity]. Qed.

(** ** Splitter *)

Example split_ten_pages :
  map (fun c => (Splitter.pageStart c, Splitter.pageEnd c))
      (Splitter.split_pdf_by_size 1048576 (replicate 10 307200%N))
  = [(1, 3); (4, 6); (7, 9); (10, 10)]%nat.
Proof. vm_compute. reflexivity. Qed.

Lemma sum_sizes_app (l k : list N) :
  Splitter.sum_sizes (l ++ k) = (Splitter.sum_sizes l + Splitter.sum_sizes k)%N.
Proof.
  unfold Splitter.sum_sizes. induction l as [|x l IH]; simpl; [reflexivity|].
  rewrite IH. lia.
Qed.

Lemma pageCount_close (ord : nat) (cur : Splitter.Current) :
  Splitter.pageCount (Splitter.close ord cur)
  = (S (Splitter.lastPage cur) - Splitter.firstPage cur)%nat.
Proof. unfold Splitter.pageCount, Splitter.chunk_pages. simpl. apply length_seq. Qed.

(** Closing the current chunk gives a well-formed chunk of the whole list. *)
Lemma close_ok (c : N) (ord : nat) (cur : Splitter.Current) (pre sizes : list N) :
  length pre = Splitter.lastPage cur ->
  (1 <= Splitter.firstPage cur <= Splitter.lastPage cur)%nat ->
  Splitter.total cur = Splitter.sum_sizes (drop (Splitter.firstPage cur - 1) pre) ->
  ((Splitter.total cur <= c)%N \/ Splitter.firstPage cur = Splitter.lastPage cur) ->
  Splitter.chunk_ok c (pre ++ sizes) (Splitter.close ord cur).
Proof.
  intros Hlen Hrange Htot Hbound. unfold Splitter.chunk_ok.
  rewrite pageCount_close. simpl. rewrite length_app.
  split; [lia|]. split; [|exact Hbound].
  unfold Splitter.range_size. rewrite Htot. f_equal.
  rewrite drop_app_le by lia.
  rewrite take_app_le by (rewrite length_drop; lia).
  symmetry. apply take_ge. rewrite length_drop. lia.
Qed.

Lemma accumulate_ok (c : N) (sizes : list N) :
  forall (pre : list N) (ord : nat) (cur : Splitter.Current),
    length pre = Splitter.lastPage cur ->
    (1 <= Splitter.firstPage cur <= Splitter.lastPage cur)%nat ->
    Splitter.total cur = Splitter.sum_sizes (drop (Splitter.firstPage cur - 1) pre) ->
    ((Splitter.total cur <= c)%N \/ Splitter.firstPage cur = Splitter.lastPage cur) ->
    Forall (Splitter.chunk_ok c (pre ++ sizes)) (Splitter.accumulate c ord cur sizes).
Proof.
  induction sizes as [|size rest IH]; intros pre ord cur Hlen Hrange Htot Hbound; simpl.
  - constructor; [|constructor]. apply close_ok; assumption.
  - replace (pre ++ size :: rest) with ((pre ++ [size]) ++ rest)
      by (rewrite <- app_assoc; reflexivity).
    destruct (N.leb_spec (Splitter.total cur + size) c) as [Hfit|Hover].
    + apply IH; simpl.
      * rewrite length_app. simpl. lia.
      * lia.
      * rewrite drop_app_le by lia. rewrite sum_sizes_app, Htot.
        unfold Splitter.sum_sizes. simpl. lia.
      * left. exact Hfit.
    + constructor.
      * rewrite <- app_assoc. apply close_ok; assumption.
      * apply IH; simpl.
        -- rewrite length_app. simpl. lia.
        -- lia.
        -- rewrite Nat.sub_0_r, <- Hlen, drop_app_length. unfold Splitter.sum_sizes. simpl. lia.
        -- right. reflexivity.
Qed.

Lemma split_pdf_by_size_ok (c : N) (sizes : list N) :
  Forall (Splitter.chunk_ok c sizes) (Splitter.split_pdf_by_size c sizes).
Proof.
  destruct sizes as [|size rest]; [constructor|].
  apply (accumulate_ok c rest [size] 1 (Splitter.start 1 size)); simpl.
  - reflexivity.
  - lia.
  - unfold Splitter.sum_sizes. simpl. lia.
  - right. reflexivity.
Qed.

(** The chunks cut from [cur] onwards hold the pages from [firstPage cur] to
    the last page, each once and in order. *)
Lemma accumulate_pages (c : N) (sizes : list N) :
  forall (ord : nat) (cur : Splitter.Current),
    (Splitter.firstPage cur <= Splitter.lastPage cur)%nat ->
    concat (map Splitter.chunk_pages (Splitter.accumulate c ord cur sizes))
    = seq (Splitter.firstPage cur)
          (S (Splitter.lastPage cur) - Splitter.firstPage cur + length sizes).
Proof.
  induction sizes as [|size rest IH]; intros ord cur Hle; simpl.
  - rewrite app_nil_r, Nat.add_0_r. reflexivity.
  - destruct (Splitter.total cur + size <=? c)%N.
    + rewrite IH by (simpl; lia). simpl. f_equal. lia.
    + rewrite map_cons, concat_cons, IH by (simpl; lia).
      unfold Splitter.chunk_pages. simpl Splitter.pageStart. simpl Splitter.pageEnd.
      simpl Splitter.firstPage. simpl Splitter.lastPage.
      rewrite (seq_app (S (Splitter.lastPage cur) - Splitter.firstPage cur)).
      f_equal. f_equal; lia.
Qed.

Lemma accumulate_ordinals (c : N) (sizes : list N) :
  forall (ord : nat) (cur : Splitter.Current),
    map Splitter.ordinal (Splitter.accumulate c ord cur sizes)
    = seq ord (length (Splitter.accumulate c ord cur sizes)).
Proof.
  induction sizes as [|size rest IH]; intros ord cur; simpl; [reflexivity|].
  destruct (Splitter.total cur + size <=? c)%N; simpl.
  - apply IH.
  - f_equal. apply IH.
Qed.

Lemma split_pdf_by_size_partition (c : N) (sizes : list N) :
  concat (map Splitter.chunk_pages (Splitter.split_pdf_by_size c sizes))
  = seq 1 (length sizes).
Proof.
  destruct sizes as [|size rest]; [reflexivity|].
  unfold Splitter.split_pdf_by_size. rewrite accumulate_pages by (simpl; lia).
  reflexivity.
Qed.

Lemma split_pdf_by_size_ordinals (c : N) (sizes : list N) :
  map Splitter.ordinal (Splitter.split_pdf_by_size c sizes)
  = seq 1 (length (Splitter.split_pdf_by_size c sizes)).
Proof.
  destruct sizes as [|size rest]; [reflexivity|]. apply accumulate_ordinals.
Qed.

Lemma sum_sizes_lookup (l : list N) (i : nat) (s : N) :
  l !! i = Some s -> (s <= Splitter.sum_sizes l)%N.
Proof.
  revert i. induction l as [|x l IH]; intros i H; [discriminate|].
  unfold Splitter.sum_sizes in *. destruct i as [|i]; simpl in *.
  - injection H as ->. lia.
  - specialize (IH _ H). lia.
Qed.

(** A page inside a range weighs at most the range. *)
Lemma range_size_page (sizes : list N) (a n p : nat) (s : N) :
  Splitter.page_size sizes p = Some s ->
  (1 <= a)%nat -> (a <= p < a + n)%nat ->
  (s <= Splitter.range_size sizes a n)%N.
Proof.
  intros Hp Ha Hin. destruct p as [|i]; [lia|]. simpl in Hp.
  unfold Splitter.range_size. apply (sum_sizes_lookup _ (S i - a)).
  rewrite lookup_take_lt by lia. rewrite lookup_drop.
  replace (a - 1 + (S i - a))%nat with i by lia. exact Hp.
Qed.

Lemma range_size_one (sizes : list N) (p : nat) (s : N) :
  Splitter.page_size sizes p = Some s -> Splitter.range_size sizes p 1 = s.
Proof.
  intros Hp. destruct p as [|i]; [discriminate|]. simpl in Hp.
  unfold Splitter.range_size. simpl. rewrite Nat.sub_0_r.
  rewrite (drop_S _ _ _ Hp). unfold Splitter.sum_sizes. simpl. lia.
Qed.

Lemma pageCount_range (c : Splitter.SplitChunk) :
  Splitter.pageCount c = (S (Splitter.pageEnd c) - Splitter.pageStart c)%nat.
Proof. unfold Splitter.pageCount, Splitter.chunk_pages. apply length_seq. Qed.

(** A one-page chunk over the ceiling is the lone oversized page. *)
Lemma chunk_ok_bound (c : N) (sizes : list N) (ch : Splitter.SplitChunk) :
  Splitter.chunk_ok c sizes ch ->
  (Splitter.sizeBytes ch <= c)%N \/ Splitter.lone_oversized c sizes ch.
Proof.
  intros [[H1 [H2 H3]] [Hsize Hb]].
  destruct (N.le_gt_cases (Splitter.sizeBytes ch) c) as [Hle|Hgt]; [left; exact Hle|].
  right. destruct Hb as [Hle|Heq]; [lia|].
  unfold Splitter.lone_oversized. split; [exact Heq|]. split; [|exact Hgt].
  rewrite pageCount_range, <- Heq in Hsize.
  replace (S (Splitter.pageStart ch) - Splitter.pageStart ch)%nat with 1%nat in Hsize by lia.
  destruct (Splitter.page_size sizes (Splitter.pageStart ch)) as [s|] eqn:Hp.
  - rewrite (range_size_one _ _ _ Hp) in Hsize. congruence.
  - exfalso. destruct (Splitter.pageStart ch) as [|i] eqn:Hs; [lia|].
    simpl in Hp. apply lookup_ge_None in Hp. lia.
Qed.

(** An oversized page is alone in its chunk. *)
Lemma oversized_page_alone (c : N) (sizes : list N) (p : nat) (s : N) :
  Splitter.page_size sizes p = Some s -> (c < s)%N ->
  exists ch, In ch (Splitter.split_pdf_by_size c sizes) /\
    Splitter.pageStart ch = p /\ Splitter.pageEnd ch = p /\
    Splitter.sizeBytes ch = s.
Proof.
  intros Hp Hover.
  assert (Hin : In p (seq 1 (length sizes))).
  { apply in_seq. destruct p as [|i]; [discriminate|]. simpl in Hp.
    apply lookup_lt_Some in Hp. lia. }
  rewrite <- (split_pdf_by_size_partition c) in Hin.
  apply in_concat in Hin. destruct Hin as [pages [Hpages Hmem]].
  apply in_map_iff in Hpages. destruct Hpages as [ch [<- Hch]].
  exists ch. split; [exact Hch|].
  pose proof (split_pdf_by_size_ok c sizes) as Hall.
  rewrite List.Forall_forall in Hall. specialize (Hall _ Hch).
  unfold Splitter.chunk_pages in Hmem. apply in_seq in Hmem.
  destruct Hall as [[H1 [H2 H3]] [Hsize Hb]].
  assert (Hge : (s <= Splitter.sizeBytes ch)%N).
  { rewrite Hsize, pageCount_range. apply (range_size_page _ _ _ p); [exact Hp|lia|lia]. }
  destruct Hb as [Hle|Heq]; [lia|].
  assert (Splitter.pageStart ch = p) as Hs by lia.
  split; [exact Hs|]. split; [lia|].
  rewrite Hsize, pageCount_range, <- Heq.
  replace (S (Splitter.pageStart ch) - Splitter.pageStart ch)%nat with 1%nat by lia.
  rewrite Hs. apply range_size_one. exact Hp.
Qed.

(** C2: every chunk produced by Split is within the ceiling unless it holds
    exactly one page whose own serialized size exceeds the ceiling, and every
    such oversized page is a one-page chunk by itself, of the page's own size. *)
Theorem split_chunks_within_ceiling (doc : Splitter.Document) (ceilingBytes : N)
    (chunks : list Splitter.SplitChunk) :
  Splitter.Split doc ceilingBytes = inr chunks ->
  exists sizes, doc = Splitter.Paginated sizes /\
    Forall (fun c => (Splitter.sizeBytes c <= ceilingBytes)%N \/
                     Splitter.lone_oversized ceilingBytes sizes c) chunks /\
    (forall p s, Splitter.page_size sizes p = Some s -> (ceilingBytes < s)%N ->
       exists c, In c chunks /\ Splitter.pageStart c = p /\ Splitter.pageEnd c = p /\
                 Splitter.pageCount c = 1%nat /\ Splitter.sizeBytes c = s).
Proof.
  intros HS. destruct doc as [|sizes]; [discriminate|]. simpl in HS.
  injection HS as <-. exists sizes. split; [reflexivity|]. split.
  - eapply List.Forall_impl; [|apply split_pdf_by_size_ok].
    intros ch Hok. simpl. eapply chunk_ok_bound. exact Hok.
  - intros p s Hp Hover.
    destruct (oversized_page_alone ceilingBytes sizes p s Hp Hover)
      as [ch [Hin [Hs [He Hsz]]]].
    exists ch. repeat split; try assumption.
    rewrite pageCount_range, Hs, He. lia.
Qed.

(** C3: for a parseable PDF, Split succeeds; the page ranges of its chunks,
    concatenated in ordinal order, are exactly the pages 1..pageCount, and
    every chunk holds at least one page. *)
Theorem split_partitions_pages (sizes : list N) (ceilingBytes : N) :
  exists chunks,
    Splitter.Split (Splitter.Paginated sizes) ceilingBytes = inr chunks /\
    map Splitter.ordinal chunks = seq 1 (length chunks) /\
    concat (map Splitter.chunk_pages chunks) = seq 1 (length sizes) /\
    Forall (fun c => (1 <= Splitter.pageCount c)%nat /\
                     Splitter.chunk_pages c
                     = seq (Splitter.pageStart c) (Splitter.pageCount c)) chunks.
Proof.
  exists (Splitter.split_pdf_by_size ceilingBytes sizes). split; [reflexivity|].
  split; [apply split_pdf_by_size_ordinals|]. split; [apply split_pdf_by_size_partition|].
  eapply List.Forall_impl; [|apply (split_pdf_by_size_ok ceilingBytes)].
  intros ch [[H1 [H2 H3]] _]. simpl. rewrite pageCount_range. split; [lia|].
  reflexivity.
Qed.

(** ** OCR job state machine *)

Lemma step_terminal (timeout : N) (j : Ocr.ExtractionJob) (o : Ocr.Observation) :
  Ocr.is_terminal (Ocr.state j) = true -> Ocr.step timeout j o = j.
Proof.
  unfold Ocr.step. destruct (Ocr.state j); simpl; intros H;
    [discriminate | discriminate | reflexivity | reflexivity | reflexivity].
Qed.

Lemma run_terminal (timeout : N) (os : list Ocr.Observation) :
  forall j, Ocr.is_terminal (Ocr.state j) = true -> Ocr.run timeout j os = j.
Proof.
  induction os as [|o os IH]; intros j H; simpl; [reflexivity|].
  rewrite step_terminal by exact H. apply IH. exact H.
Qed.

Lemma run_app (timeout : N) (j : Ocr.ExtractionJob) (pre post : list Ocr.Observation) :
  Ocr.run timeout j (pre ++ post) = Ocr.run timeout (Ocr.run timeout j pre) post.
Proof. unfold Ocr.run. apply fold_left_app. Qed.

(** C5: once a job has reached Succeeded, Failed or TimedOut, no later step
    of the state machine changes its state (nor anything else of the job). *)
Theorem terminal_state_is_final (timeout : N) (j : Ocr.ExtractionJob)
    (pre post : list Ocr.Observation) :
  Ocr.is_terminal (Ocr.state (Ocr.run timeout j pre)) = true ->
  Ocr.state (Ocr.run timeout j (pre ++ post)) = Ocr.state (Ocr.run timeout j pre) /\
  Ocr.run timeout j (pre ++ post) = Ocr.run timeout j pre.
Proof.
  intros H. rewrite run_app, run_terminal by exact H. split; reflexivity.
Qed.

(** A job has a result to surface exactly when it is in a terminal state. *)
Lemma surface_terminal (j : Ocr.ExtractionJob) :
  Ocr.is_terminal (Ocr.state j) = true <-> Ocr.surface j <> None.
Proof.
  unfold Ocr.surface. destruct (Ocr.state j); simpl; split; intros H;
    try discriminate; try reflexivity; congruence.
Qed.

(** A poll at or past the wall-clock ceiling ends the wait with TimedOut. *)
Lemma step_timeout (timeout : N) (j : Ocr.ExtractionJob) (o : Ocr.Observation) :
  Ocr.state j = Ocr.Polling -> (timeout <= Ocr.elapsed o)%N ->
  Ocr.state (Ocr.step timeout j o) = Ocr.TimedOut.
Proof.
  intros Hs Ht. unfold Ocr.step. rewrite Hs.
  apply N.leb_le in Ht. rewrite Ht. reflexivity.
Qed.

(** ** Attachment resolver *)

Section ResolverFacts.

Variable fetch : Resolver.ObjectReference -> Resolver.ResolveError + string.
Variable extract : Resolver.ObjectReference -> Resolver.ResolveError + string.

Lemma complete_length (atts : list Resolver.Attachment)
    (slots : list (option Resolver.ContentBlock)) (i : nat) :
  length ((Resolver.complete fetch extract) atts slots i) = length slots.
Proof.
  unfold Resolver.complete. destruct (atts !! i); [apply length_insert|reflexivity].
Qed.

(** A slot holds its attachment's result once its task has completed, and
    keeps it whatever completes afterwards. *)
Lemma slot_filled (atts : list Resolver.Attachment) (i : nat) (a : Resolver.Attachment)
    (completion : list nat) :
  atts !! i = Some a ->
  forall slots : list (option Resolver.ContentBlock),
    length slots = length atts ->
    In i completion \/ slots !! i = Some ((Resolver.resolve_one fetch extract) a) ->
    fold_left ((Resolver.complete fetch extract) atts) completion slots !! i = Some ((Resolver.resolve_one fetch extract) a).
Proof.
  intros Ha. induction completion as [|j rest IH]; intros slots Hlen Hin; simpl.
  - destruct Hin as [[]|H]. exact H.
  - apply IH; [rewrite complete_length; exact Hlen|].
    destruct (Nat.eq_dec j i) as [->|Hne].
    + right. unfold Resolver.complete. rewrite Ha.
      apply list_lookup_insert_eq. rewrite Hlen.
      apply lookup_lt_Some in Ha. exact Ha.
    + destruct Hin as [[Heq|Hin]|Hs]; [contradiction|left; exact Hin|].
      right. unfold Resolver.complete.
      destruct (atts !! j); [|exact Hs].
      rewrite list_lookup_insert_ne by exact Hne. exact Hs.
Qed.

Lemma fold_complete_length (atts : list Resolver.Attachment) (completion : list nat) :
  forall slots : list (option Resolver.ContentBlock),
    length (fold_left ((Resolver.complete fetch extract) atts) completion slots) = length slots.
Proof.
  induction completion as [|j rest IH]; intros slots; simpl; [reflexivity|].
  rewrite IH. apply complete_length.
Qed.

(** When every task has completed, the slot array is the list of results in
    attachment order, whatever the completion order was. *)
Lemma slots_joined (atts : list Resolver.Attachment) (completion : list nat) :
  Permutation completion (seq 0 (length atts)) ->
  fold_left ((Resolver.complete fetch extract) atts) completion (replicate (length atts) None)
  = map (Resolver.resolve_one fetch extract) atts.
Proof.
  intros Hperm. apply list_eq. intros i.
  destruct (atts !! i) as [a|] eqn:Ha.
  - rewrite (slot_filled atts i a completion Ha).
    + change (map (Resolver.resolve_one fetch extract) atts) with ((Resolver.resolve_one fetch extract) <$> atts).
      rewrite list_lookup_fmap, Ha. reflexivity.
    + apply length_replicate.
    + left. apply (Permutation_in _ (Permutation_sym Hperm)).
      apply in_seq. apply lookup_lt_Some in Ha. lia.
  - apply lookup_ge_None in Ha.
    rewrite (proj2 (lookup_ge_None _ _)).
    + symmetry. apply lookup_ge_None. rewrite length_map. exact Ha.
    + rewrite fold_complete_length, length_replicate. exact Ha.
Qed.

Lemma omap_id_map (atts : list Resolver.Attachment) :
  omap id (map (Resolver.resolve_one fetch extract) atts) = omap (Resolver.resolve_one fetch extract) atts.
Proof.
  induction atts as [|a atts IH]; simpl; [reflexivity|].
  destruct ((Resolver.resolve_one fetch extract) a); [f_equal|]; exact IH.
Qed.

(** The joined result does not depend on the completion order. *)
Lemma Resolve_in_order (atts : list Resolver.Attachment) (completion : list nat) :
  Permutation completion (seq 0 (length atts)) ->
  Resolver.Resolve fetch extract completion atts = omap (Resolver.resolve_one fetch extract) atts.
Proof.
  intros Hperm. unfold Resolver.Resolve.
  rewrite slots_joined by exact Hperm. apply omap_id_map.
Qed.

Lemma resolve_one_ocr_failed (a : Resolver.Attachment) (r : Resolver.ObjectReference) :
  Resolver.classify a = Resolver.ObjectOCR r ->
  extract r = inl Resolver.ExtractionFailed ->
  (Resolver.resolve_one fetch extract) a = None.
Proof.
  intros Hc He. unfold Resolver.resolve_one, Resolver.resolve_path.
  rewrite Hc, He. reflexivity.
Qed.

(** C4: when OCR extraction of one attachment fails, the resolver returns,
    whatever the completion order of the tasks, exactly the blocks of the
    other attachments in the original attachment order; the failure is
    recovered and nothing of the failed attachment remains. *)
Theorem ocr_failure_drops_attachment (before after : list Resolver.Attachment)
    (a : Resolver.Attachment) (r : Resolver.ObjectReference) (completion : list nat) :
  Permutation completion (seq 0 (length (before ++ a :: after))) ->
  Resolver.classify a = Resolver.ObjectOCR r ->
  extract r = inl Resolver.ExtractionFailed ->
  Resolver.Resolve fetch extract completion (before ++ a :: after)
  = omap (Resolver.resolve_one fetch extract) before ++ omap (Resolver.resolve_one fetch extract) after.
Proof.
  intros Hperm Hc He. rewrite Resolve_in_order by exact Hperm.
  rewrite omap_app. simpl.
  rewrite (resolve_one_ocr_failed a r Hc He). reflexivity.
Qed.

End ResolverFacts.

(** ** Keys and their segments *)

Section Segments.

Import Stdlib.Strings.Ascii.

Lemma string_app_assoc (a b c : string) : (a +:+ b) +:+ c = a +:+ (b +:+ c).
Proof.
  induction a as [|x a IH]; [reflexivity|].
  change (String x ((a +:+ b) +:+ c) = String x (a +:+ (b +:+ c))).
  f_equal. exact IH.
Qed.

(** Two strings that agree up to and including the first slash after a
    slash-free segment have the same segment. *)
Lemma segment_inj (a b r q : string) :
  Route.no_slash a = true -> Route.no_slash b = true ->
  a +:+ String "/"%char r = b +:+ String "/"%char q -> a = b /\ r = q.
Proof.
  revert b. induction a as [|x a IH]; intros [|y b] Ha Hb H.
  - injection H as <-. split; reflexivity.
  - change (String "/"%char r = String y (b +:+ String "/"%char q)) in H.
    injection H as <- _. cbn in Hb. discriminate.
  - change (String x (a +:+ String "/"%char r) = String "/"%char q) in H.
    injection H as -> _. cbn in Ha. discriminate.
  - change (String x (a +:+ String "/"%char r) = String y (b +:+ String "/"%char q)) in H.
    injection H as -> H. cbn in Ha, Hb.
    apply andb_true_iff in Ha. apply andb_true_iff in Hb.
    destruct (IH b (proj2 Ha) (proj2 Hb) H) as [-> ->]. split; reflexivity.
Qed.



End Segments.

(** ** Frontend upload path *)

Section FrontendFacts.

Import Frontend.

Variable K : Constants.
Variable env : Env.
Variable props : Props.
Variable acceptMediaType : list string.



Lemma dispatch_spec (fileList : list File.t) (st : State) :
  exists st',
    (Frontend.dispatch K acceptMediaType) fileList st = (inr (omap (Frontend.route K acceptMediaType) fileList), st') /\
    same_attachments st st' /\ calls st' = calls st.
Proof.
  revert st. induction fileList as [|file rest IH]; intros st.
  - exists st. repeat split; reflexivity.
  - cbn [Frontend.dispatch].
    change (omap (Frontend.route K acceptMediaType) (file :: rest))
      with (match (Frontend.route K acceptMediaType) file with
            | Some y => y :: omap (Frontend.route K acceptMediaType) rest
            | None => omap (Frontend.route K acceptMediaType) rest
            end).
    unfold Frontend.route at 1.
    destruct (has_supported_extension K (File.name file)).
    + unfold Frontend.handleAttachedFileRead_until_await.
      destruct (MAX_SUPPORTED_FILE_SIZE_BYTES K <? File.size file)%N.
      * unfold bind, open, modify. cbn beta iota.
        match goal with |- context [(Frontend.dispatch K acceptMediaType) rest ?s] =>
          destruct (IH s) as [st' [Hd [Hs Hc]]] end.
        exists st'. rewrite Hd. split; [reflexivity|].
        split; [|exact Hc].
        destruct Hs as [H1 [H2 H3]]. repeat split; assumption.
      * destruct (IH st) as [st' [Hd [Hs Hc]]]. exists st'.
        unfold bind, ret. rewrite Hd. repeat split; try apply Hs; exact Hc.
    + destruct (has_accepted_media_type acceptMediaType (File.name file)).
      * destruct (IH st) as [st' [Hd [Hs Hc]]]. exists st'.
        unfold bind. rewrite Hd. repeat split; try apply Hs; exact Hc.
      * unfold bind at 1. unfold open, modify.
        match goal with |- context [(Frontend.dispatch K acceptMediaType) rest ?s] =>
          destruct (IH s) as [st' [Hd [Hs Hc]]] end.
        exists st'. split; [exact Hd|]. split; [|exact Hc].
        destruct Hs as [H1 [H2 H3]]. repeat split; assumption.
Qed.

(** A call of [handleAttachedFileRead] is its part before the first [await]
    followed by the rest. *)
Lemma handleAttachedFileRead_in_two_parts (file : File.t) (st : State) :
  (Frontend.handleAttachedFileRead_until_await K file ;;
   Frontend.handleAttachedFileRead_after_await K env props file) st
  = Frontend.handleAttachedFileRead K env props file st.
Proof.
  unfold Frontend.handleAttachedFileRead_until_await,
    Frontend.handleAttachedFileRead_after_await, Frontend.handleAttachedFileRead.
  destruct (MAX_SUPPORTED_FILE_SIZE_BYTES K <? File.size file)%N; reflexivity.
Qed.

(** Unfolding the upload path down to the answers of the environment. *)
Ltac unfold_upload :=
  unfold Frontend.handleLargeFileUpload, Frontend.getDocumentUploadUrl,
    Frontend.uploadFileToS3, Frontend.splitPDF, Frontend.getAuthHeaders,
    Frontend.fetch_json, Frontend.try_catch, Frontend.bind, Frontend.gets,
    Frontend.log_call, Frontend.open, Frontend.modify,
    Frontend.throw, Frontend.ret.

Ltac case_env :=
  match goal with
  | |- context [Frontend.fetchAuthSession ?e ?h] =>
      destruct (Frontend.fetchAuthSession e h) as [?|?] eqn:?
  | |- context [Frontend.answer_upload ?e ?h] =>
      destruct (Frontend.answer_upload e h) as [?|?|?] eqn:?
  | |- context [Frontend.answer_put ?e ?h] =>
      destruct (Frontend.answer_put e h) as [?|?|?] eqn:?
  | |- context [Frontend.answer_split ?e ?h] =>
      destruct (Frontend.answer_split e h) as [?|?|?] eqn:?
  end; cbn.

Lemma forEach_pushS3File {A} (g : A -> S3AttachedFile.t) (l : list A) (st : State) :
  forEach l (fun x => pushS3File (g x)) st
  = (inr tt,
     {| base64EncodedImages := base64EncodedImages st;
        attachedFiles := attachedFiles st;
        s3AttachedFiles := s3AttachedFiles st ++ map g l;
        snackbar := snackbar st;
        calls := calls st |}).
Proof.
  revert st. induction l as [|x l IH]; intros st; cbn [forEach map].
  - unfold ret. rewrite app_nil_r. destruct st; reflexivity.
  - unfold bind, pushS3File, modify. rewrite IH. cbn.
    rewrite <- app_assoc. reflexivity.
Qed.

Ltac fold_forEach :=
  match goal with
  | |- context [forEach ?l (fun x => pushS3File (@?g x)) ?s] =>
      rewrite (forEach_pushS3File g l s); cbn
  end.


(** Every call the upload path adds to the log has one of the three shapes. *)
Lemma upload_path_calls (file : File.t) (shouldSplit : bool) (st : State) :
  exists new,
    calls (snd ((Frontend.handleLargeFileUpload K env props) file shouldSplit st)) = calls st ++ new /\
    Forall ((Frontend.issued_for K env props) file) new.
Proof.
  assert (Hup : forall h, (Frontend.issued_for K env props) file
            {| url := upload_url env (Js.or_else (conversationId props) "temp"); method := "POST"; headers := h;
               body := UploadJson {| filename := File.name file;
                                     content_type := File.type file;
                                     file_size := File.size file |} |}).
  { intros h. left. repeat split; reflexivity. }
  assert (Hput : forall u h, (Frontend.issued_for K env props) file
            {| url := u; method := "PUT"; headers := h; body := FileBody file |}).
  { intros u h. right. left. split; reflexivity. }
  assert (Hsplit : forall key h, (Frontend.issued_for K env props) file
            {| url := split_url env (Js.or_else (conversationId props) "temp"); method := "POST"; headers := h;
               body := SplitJson {| s3_key := key;
                                    max_size_mb := Some (BEDROCK_MAX_FILE_SIZE_MB K) |} |}).
  { intros key h. right. right. repeat split; try reflexivity. exists key. reflexivity. }
  destruct shouldSplit; unfold_upload; cbn; repeat case_env; try fold_forEach;
    rewrite <- ?app_assoc; cbn [app];
    first [ exists []; split; [rewrite app_nil_r; reflexivity | constructor]
          | eexists; split; [reflexivity|]; solve [auto using Forall_nil, Forall_cons] ].
Qed.

(** With a session, the upload path begins by requesting an upload handle for
    the file, under the conversation scope. *)
Lemma upload_path_first_call (file : File.t) (shouldSplit : bool) (st : State)
    (idToken : option string) :
  fetchAuthSession env (calls st) = inr idToken ->
  exists c later,
    calls (snd ((Frontend.handleLargeFileUpload K env props) file shouldSplit st)) = calls st ++ c :: later /\
    url c = upload_url env (Js.or_else (conversationId props) "temp") /\ method c = "POST" /\
    body c = UploadJson {| filename := File.name file;
                           content_type := File.type file;
                           file_size := File.size file |}.
Proof.
  intros Hauth.
  destruct shouldSplit; unfold_upload; cbn; rewrite Hauth; cbn;
    repeat case_env; try fold_forEach; rewrite <- ?app_assoc; cbn [app];
    (eexists; eexists; split; [reflexivity|repeat split]).
Qed.

(** C10: when the documents already attached (regular ones with a supported
    extension, plus all S3 ones) together with the selected files with a
    supported extension exceed MAX_ATTACHED_FILES, onChangeFile starts no
    handler for any selected file, images included, and leaves the attachment
    state as it was; otherwise it starts, in selection order, the upload
    handler for every selected file with a supported extension and the image
    handler for every other selected file of an accepted media type. *)
Theorem file_count_gate (fileList : list File.t) (st : State) :
  let attached :=
    (length (List.filter (fun f => has_supported_extension K (AttachedFile.name f))
                         (attachedFiles st))
     + length (s3AttachedFiles st))%nat in
  let selected :=
    length (List.filter (fun f => has_supported_extension K (File.name f)) fileList) in
  exists started st',
    (Frontend.onChangeFile K acceptMediaType) fileList st = (inr started, st') /\
    same_attachments st st' /\ calls st' = calls st /\
    ((MAX_ATTACHED_FILES K < attached + selected)%nat ->
       started = [] /\
       snackbar st' = snackbar st ++ [FileCountExceeded (MAX_ATTACHED_FILES K)]) /\
    ((attached + selected <= MAX_ATTACHED_FILES K)%nat ->
       started = omap (Frontend.route K acceptMediaType) fileList).
Proof.
  intros attached selected. unfold Frontend.onChangeFile, bind, gets.
  fold attached. fold selected.
  destruct (Nat.ltb_spec (MAX_ATTACHED_FILES K) (attached + selected)) as [Hover|Hfit].
  - eexists. eexists. split; [reflexivity|]. split; [repeat split|].
    split; [reflexivity|]. split; [intros _; split; reflexivity|]. intros Hle. lia.
  - destruct (dispatch_spec fileList st) as [st' [Hd [Hs Hc]]].
    exists (omap (Frontend.route K acceptMediaType) fileList), st'. split; [exact Hd|]. split; [exact Hs|].
    split; [exact Hc|]. split; [intros Hlt; lia|]. intros _. reflexivity.
Qed.

(** C6: a file larger than the maximum supported size is refused with the
    size error: no request is issued (no upload handle, no upload) and no
    attachment is added. A file at or below that size goes on to the upload
    path, which, given a session, requests an upload handle for exactly this
    file name, type and size. *)
Theorem oversize_file_refused (file : File.t) (st : State) :
  ((MAX_SUPPORTED_FILE_SIZE_BYTES K < File.size file)%N ->
     exists st',
       (Frontend.handleAttachedFileRead K env props) file st = (inr tt, st') /\
       calls st' = calls st /\ same_attachments st st' /\
       snackbar st' = snackbar st ++ [FileSizeExceeded (MAX_SUPPORTED_FILE_SIZE_MB K)]) /\
  ((File.size file <= MAX_SUPPORTED_FILE_SIZE_BYTES K)%N ->
     (Frontend.handleAttachedFileRead K env props) file st
     = (Frontend.handleLargeFileUpload K env props) file
         (String.eqb (File.type file) "application/pdf"
          && (BEDROCK_MAX_FILE_SIZE_BYTES K <? File.size file)%N) st /\
     forall idToken, fetchAuthSession env (calls st) = inr idToken ->
       exists c later,
         calls (snd ((Frontend.handleAttachedFileRead K env props) file st)) = calls st ++ c :: later /\
         url c = upload_url env (Js.or_else (conversationId props) "temp") /\ method c = "POST" /\
         body c = UploadJson {| filename := File.name file;
                                content_type := File.type file;
                                file_size := File.size file |}).
Proof.
  unfold Frontend.handleAttachedFileRead. split.
  - intros Hover. apply N.ltb_lt in Hover. rewrite Hover.
    eexists. split; [reflexivity|]. simpl. repeat split; reflexivity.
  - intros Hfit. apply N.ltb_ge in Hfit. rewrite Hfit. split; [reflexivity|].
    intros idToken Hauth. apply (upload_path_first_call _ _ _ idToken Hauth).
Qed.

Lemma or_else_falsy (v : option string) (d : string) :
  Js.truthy v = false -> Js.or_else v d = d.
Proof. destruct v as [[|c s]|]; simpl; intros H; [reflexivity|discriminate|reflexivity]. Qed.

Lemma or_else_truthy (id d : string) :
  Js.truthy (Some id) = true -> Js.or_else (Some id) d = id.
Proof. destruct id as [|c s]; simpl; intros H; [discriminate|reflexivity]. Qed.


(** The two ways a run of the split branch ends. *)
Lemma split_run (file : File.t) (st : State) :
  let st' := snd ((Frontend.handleLargeFileUpload K env props) file true st) in
  (s3AttachedFiles st' = s3AttachedFiles st /\
   snackbar st' = snackbar st ++ [FileUploadFailed]) \/
  (exists response history,
     calls st' = history /\
     answer_split env history = Ok response /\
     s3AttachedFiles st'
     = s3AttachedFiles st ++ map (chunk_attachment file) (chunks response) /\
     snackbar st' = snackbar st ++ [PdfSplit (totalChunks response)]).
Proof.
  cbv zeta. unfold_upload; cbn; repeat case_env; try fold_forEach;
    first [ left; split; reflexivity
          | right; eexists; eexists; split; [reflexivity|];
            split; [eassumption|]; split; reflexivity ].
Qed.

(** No log ends with a call it did not have before unless one was added. *)
Lemma no_call_added (history earlier : list Call) (request : Call) :
  history <> history ++ earlier ++ [request].
Proof.
  intros H. apply (f_equal length) in H.
  rewrite !length_app in H. cbn in H. lia.
Qed.

(** The last call of a log that was extended. *)
Lemma last_call_added (history new earlier : list Call) (request : Call) :
  history ++ new = history ++ earlier ++ [request] -> last new = Some request.
Proof.
  intros H. apply app_inv_head in H. rewrite H. apply last_snoc.
Qed.

(** C9: whenever the split succeeds, that is, the run of the split branch
    ends with a split request as its last call and the backend answers that
    request with a response, the run returns with exactly one S3 attachment
    appended per chunk of the response, in the chunks' order, each named by
    the chunk's fileName, sized by its sizeBytes, keyed by its s3Key and
    typed as the original file; the images and the regular attachments stay
    as they were and the split notice is shown. *)
Theorem split_appends_one_attachment_per_chunk (file : File.t) (st : State)
    (response : PDFSplitResponse) :
  let st' := snd ((Frontend.handleLargeFileUpload K env props) file true st) in
  (exists earlier request splitRequest,
     calls st' = calls st ++ earlier ++ [request] /\
     body request = SplitJson splitRequest) ->
  answer_split env (calls st') = Ok response ->
  fst ((Frontend.handleLargeFileUpload K env props) file true st) = inr tt /\
  s3AttachedFiles st'
  = s3AttachedFiles st
    ++ map (fun chunk => {| S3AttachedFile.name := Chunk.fileName chunk;
                            S3AttachedFile.type := File.type file;
                            S3AttachedFile.size := Chunk.sizeBytes chunk;
                            S3AttachedFile.s3Key := Chunk.s3Key chunk |})
           (chunks response) /\
  base64EncodedImages st' = base64EncodedImages st /\
  attachedFiles st' = attachedFiles st /\
  snackbar st' = snackbar st ++ [PdfSplit (totalChunks response)].
Proof.
  cbv zeta.
  remember ((Frontend.handleLargeFileUpload K env props) file true st) as run eqn:Hrun.
  intros [earlier [request [splitRequest [Hlog Hbody]]]] Hanswer. revert Hrun.
  unfold_upload; cbn; repeat case_env; try fold_forEach; intros ->;
    cbn in Hlog, Hanswer |- *;
    try congruence;
    try (exfalso; exact (no_call_added _ _ _ Hlog));
    try (exfalso; rewrite <- ?app_assoc in Hlog; apply last_call_added in Hlog;
         cbn in Hlog; injection Hlog as <-; discriminate Hbody).
  match goal with
  | H : answer_split env ?h = Ok ?answered |- _ =>
      assert (answered = response) as -> by congruence
  end.
  repeat split; reflexivity.
Qed.

(** C8 (amended): every split request the upload path issues carries an
    object key and the maximum chunk size in megabytes, and a split request
    has no other field; a chunk of the response is made of its index, object
    key, page count, size in bytes, base64 content and file name; the
    response is made of its chunks and the total chunk count. *)
Theorem split_interface_fields (file : File.t) (shouldSplit : bool) (st : State) :
  (exists new,
     calls (snd ((Frontend.handleLargeFileUpload K env props) file shouldSplit st)) = calls st ++ new /\
     Forall (fun c => forall request, body c = SplitJson request ->
               exists key, request = {| s3_key := key;
                                        max_size_mb := Some (BEDROCK_MAX_FILE_SIZE_MB K) |})
            new) /\
  (forall r1 r2 : PDFSplitRequest,
     s3_key r1 = s3_key r2 -> max_size_mb r1 = max_size_mb r2 -> r1 = r2) /\
  (forall c1 c2 : Chunk.t,
     Chunk.chunkIndex c1 = Chunk.chunkIndex c2 ->
     Chunk.s3Key c1 = Chunk.s3Key c2 ->
     Chunk.pageCount c1 = Chunk.pageCount c2 ->
     Chunk.sizeBytes c1 = Chunk.sizeBytes c2 ->
     Chunk.base64Content c1 = Chunk.base64Content c2 ->
     Chunk.fileName c1 = Chunk.fileName c2 ->
     c1 = c2) /\
  (forall p1 p2 : PDFSplitResponse,
     chunks p1 = chunks p2 -> totalChunks p1 = totalChunks p2 -> p1 = p2).
Proof.
  split; [|split; [|split]].
  - destruct (upload_path_calls file shouldSplit st) as [new [Hcalls Hall]].
    exists new. split; [exact Hcalls|]. eapply List.Forall_impl; [|exact Hall].
    intros c Hc request Hbody.
    destruct Hc as [[_ [_ Hb]]|[[_ Hb]|[_ [_ [key Hb]]]]];
      rewrite Hb in Hbody; try discriminate.
    exists key. injection Hbody as <-. reflexivity.
  - intros [k1 m1] [k2 m2]; simpl; intros -> ->; reflexivity.
  - intros [] []; simpl; intros -> -> -> -> -> ->; reflexivity.
  - intros [] []; simpl; intros -> ->; reflexivity.
Qed.

End FrontendFacts.

(** ** The properties on concrete scenarios *)

(** A 2000-byte page under a 1000-byte ceiling is a chunk by itself; the
    other chunks stay within the ceiling. *)
Lemma split_chunks_within_ceiling_witness :
  Splitter.Split (Splitter.Paginated [300; 2000; 300; 400]%N) 1000
  = inr [ {| Splitter.ordinal := 1; Splitter.pageStart := 1; Splitter.pageEnd := 1;
             Splitter.sizeBytes := 300 |};
          {| Splitter.ordinal := 2; Splitter.pageStart := 2; Splitter.pageEnd := 2;
             Splitter.sizeBytes := 2000 |};
          {| Splitter.ordinal := 3; Splitter.pageStart := 3; Splitter.pageEnd := 4;
             Splitter.sizeBytes := 700 |} ] /\
  exists sizes, Splitter.Paginated [300; 2000; 300; 400]%N = Splitter.Paginated sizes /\
    Forall (fun c => (Splitter.sizeBytes c <= 1000)%N \/
                     Splitter.lone_oversized 1000 sizes c)
           (Splitter.split_pdf_by_size 1000 [300; 2000; 300; 400]%N) /\
    (forall p s, Splitter.page_size sizes p = Some s -> (1000 < s)%N ->
       exists c, In c (Splitter.split_pdf_by_size 1000 [300; 2000; 300; 400]%N) /\
                 Splitter.pageStart c = p /\ Splitter.pageEnd c = p /\
                 Splitter.pageCount c = 1%nat /\ Splitter.sizeBytes c = s).
Proof.
  split; [reflexivity|].
  apply (split_chunks_within_ceiling (Splitter.Paginated [300; 2000; 300; 400]%N) 1000).
  reflexivity.
Defined.

(** The third attachment completes first, then the first, then the second,
    whose extraction fails: the blocks of the first and the third remain, in
    that order. *)
Lemma ocr_failure_drops_attachment_witness :
  Permutation [2; 0; 1]%nat (seq 0 (length ([Scenario.first] ++ Scenario.second :: [Scenario.third]))) /\
  Resolver.classify Scenario.second
  = Resolver.ObjectOCR (Scenario.reference "conversations/u1/c1/documents/scan.pdf") /\
  Scenario.extract (Scenario.reference "conversations/u1/c1/documents/scan.pdf")
  = inl Resolver.ExtractionFailed /\
  Resolver.Resolve Scenario.fetch Scenario.extract [2; 0; 1]%nat
    [Scenario.first; Scenario.second; Scenario.third]
  = [ Resolver.BinaryBlock "a.pdf" "application/pdf"
        "bytes of conversations/u1/c1/documents/a.pdf";
      Resolver.BinaryBlock "c.txt" "text/plain" "hello" ].
Proof.
  assert (Hperm : Permutation [2; 0; 1]%nat
            (seq 0 (length ([Scenario.first] ++ Scenario.second :: [Scenario.third])))).
  { apply (Permutation_cons_app [0; 1]%nat [] 2%nat). apply Permutation_refl. }
  split; [exact Hperm|]. split; [reflexivity|]. split; [reflexivity|].
  exact (ocr_failure_drops_attachment Scenario.fetch Scenario.extract
           [Scenario.first] [Scenario.third] Scenario.second
           (Scenario.reference "conversations/u1/c1/documents/scan.pdf")
           [2; 0; 1]%nat Hperm eq_refl eq_refl).
Defined.

(** A job that succeeded at the third poll stays Succeeded when a later poll
    reports an error and when the wall-clock ceiling has passed. *)
Lemma terminal_state_is_final_witness :
  Ocr.is_terminal
    (Ocr.state (Ocr.run 300 (Ocr.Submit "conversations/u1/c1/documents/scan.pdf" "job-1")
                        Scenario.polls)) = true /\
  Ocr.state (Ocr.run 300 (Ocr.Submit "conversations/u1/c1/documents/scan.pdf" "job-1")
                     (Scenario.polls ++ Scenario.later_polls))
  = Ocr.Succeeded.
Proof.
  split; [reflexivity|].
  exact (proj1 (terminal_state_is_final 300
                  (Ocr.Submit "conversations/u1/c1/documents/scan.pdf" "job-1")
                  Scenario.polls Scenario.later_polls eq_refl)).
Defined.

(** A 30 MB file is refused without any request; a 7 MB PDF goes on to the
    upload path and a handle is requested for it under scope temp. *)
Lemma oversize_file_refused_witness :
  ((Frontend.MAX_SUPPORTED_FILE_SIZE_BYTES Scenario.constants
    < Frontend.File.size Scenario.huge_pdf)%N /\
   exists st',
     Frontend.handleAttachedFileRead Scenario.constants Scenario.env Scenario.new_chat
       Scenario.huge_pdf Scenario.empty_state = (inr tt, st') /\
     Frontend.calls st' = [] /\
     Frontend.same_attachments Scenario.empty_state st' /\
     Frontend.snackbar st' = [Frontend.FileSizeExceeded 22]) /\
  ((Frontend.File.size Scenario.big_pdf
    <= Frontend.MAX_SUPPORTED_FILE_SIZE_BYTES Scenario.constants)%N /\
   Frontend.handleAttachedFileRead Scenario.constants Scenario.env Scenario.new_chat
     Scenario.big_pdf Scenario.empty_state
   = Frontend.handleLargeFileUpload Scenario.constants Scenario.env Scenario.new_chat
       Scenario.big_pdf true Scenario.empty_state /\
   exists c later,
     Frontend.calls (snd (Frontend.handleAttachedFileRead Scenario.constants Scenario.env
                            Scenario.new_chat Scenario.big_pdf Scenario.empty_state))
     = Frontend.calls Scenario.empty_state ++ c :: later /\
     Frontend.url c = Frontend.upload_url Scenario.env "temp" /\
     Frontend.method c = "POST" /\
     Frontend.body c
     = Frontend.UploadJson {| Frontend.filename := "big.pdf";
                              Frontend.content_type := "application/pdf";
                              Frontend.file_size := 7000000 |}).
Proof.
  assert (Hover : (Frontend.MAX_SUPPORTED_FILE_SIZE_BYTES Scenario.constants
                   < Frontend.File.size Scenario.huge_pdf)%N) by reflexivity.
  assert (Hfit : (Frontend.File.size Scenario.big_pdf
                  <= Frontend.MAX_SUPPORTED_FILE_SIZE_BYTES Scenario.constants)%N)
    by (vm_compute; discriminate).
  split; split; [exact Hover | | exact Hfit | ].
  - exact (proj1 (oversize_file_refused Scenario.constants Scenario.env
                    Scenario.new_chat Scenario.huge_pdf Scenario.empty_state) Hover).
  - destruct (proj2 (oversize_file_refused Scenario.constants Scenario.env
                       Scenario.new_chat Scenario.big_pdf Scenario.empty_state) Hfit)
      as [Hpath Hcall].
    split; [exact Hpath|]. exact (Hcall (Some "jwt") eq_refl).
Defined.



(** A 7 MB PDF whose split is answered with two chunks: two S3 attachments
    are appended, named and sized after the chunks and typed as the PDF. *)
Lemma split_appends_one_attachment_per_chunk_witness :
  let st' := snd (Frontend.handleLargeFileUpload Scenario.constants Scenario.env
                    Scenario.new_chat Scenario.big_pdf true Scenario.full_state) in
  (exists earlier request splitRequest,
     Frontend.calls st' = Frontend.calls Scenario.full_state ++ earlier ++ [request] /\
     Frontend.body request = Frontend.SplitJson splitRequest) /\
  Frontend.answer_split Scenario.env (Frontend.calls st')
  = Frontend.Ok {| Frontend.chunks := [Scenario.chunk1; Scenario.chunk2];
                   Frontend.totalChunks := 2 |} /\
  Frontend.s3AttachedFiles st'
  = Frontend.s3AttachedFiles Scenario.full_state
    ++ [ {| Frontend.S3AttachedFile.name := "big_part1.pdf";
            Frontend.S3AttachedFile.type := "application/pdf";
            Frontend.S3AttachedFile.size := 4000000;
            Frontend.S3AttachedFile.s3Key := "conversations/u1/temp/documents/big_part1.pdf" |};
         {| Frontend.S3AttachedFile.name := "big_part2.pdf";
            Frontend.S3AttachedFile.type := "application/pdf";
            Frontend.S3AttachedFile.size := 3000000;
            Frontend.S3AttachedFile.s3Key := "conversations/u1/temp/documents/big_part2.pdf" |} ] /\
  Frontend.snackbar st' = [Frontend.PdfSplit 2].
Proof.
  cbv zeta.
  assert (Hissued :
    exists earlier request splitRequest,
      Frontend.calls (snd (Frontend.handleLargeFileUpload Scenario.constants Scenario.env
                             Scenario.new_chat Scenario.big_pdf true Scenario.full_state))
      = Frontend.calls Scenario.full_state ++ earlier ++ [request] /\
      Frontend.body request = Frontend.SplitJson splitRequest).
  { eexists [_; _]. eexists. eexists. split; reflexivity. }
  split; [exact Hissued|]. split; [reflexivity|].
  destruct (split_appends_one_attachment_per_chunk Scenario.constants Scenario.env
              Scenario.new_chat Scenario.big_pdf Scenario.full_state
              {| Frontend.chunks := [Scenario.chunk1; Scenario.chunk2];
                 Frontend.totalChunks := 2 |} Hissued eq_refl)
    as [_ [Hadded [_ [_ Hshown]]]].
  split; [exact Hadded | exact Hshown].
Defined.

(** With five attachments in place, selecting a document and a photo starts
    nothing; on an empty store both are started. *)
Lemma file_count_gate_witness :
  (exists st',
     Frontend.onChangeFile Scenario.constants Scenario.acceptMediaType
       [Scenario.notes; Scenario.photo] Scenario.full_state = (inr [], st') /\
     Frontend.same_attachments Scenario.full_state st' /\
     Frontend.snackbar st' = [Frontend.FileCountExceeded 5]) /\
  (exists st',
     Frontend.onChangeFile Scenario.constants Scenario.acceptMediaType
       [Scenario.notes; Scenario.photo] Scenario.empty_state
     = (inr [Frontend.HandleAttachedFileRead Scenario.notes;
             Frontend.EncodeAndPushImage Scenario.photo], st')).
Proof.
  split.
  - destruct (file_count_gate Scenario.constants Scenario.acceptMediaType
                [Scenario.notes; Scenario.photo] Scenario.full_state)
      as [started [st' [Hrun [Hsame [_ [Hover _]]]]]].
    assert (Hlt : (5 < 5 + 1)%nat) by lia.
    destruct (Hover Hlt) as [-> Hsnack].
    exists st'. split; [exact Hrun|]. split; [exact Hsame | exact Hsnack].
  - destruct (file_count_gate Scenario.constants Scenario.acceptMediaType
                [Scenario.notes; Scenario.photo] Scenario.empty_state)
      as [started [st' [Hrun [_ [_ [_ Hfit]]]]]].
    assert (Hle : (0 + 1 <= 5)%nat) by lia.
    rewrite (Hfit Hle) in Hrun. exists st'. exact Hrun.
Defined.

(** C8 as worded fails: two chunks with the same index, key, page count and
    size still differ, in their content. *)
Lemma split_chunk_fields_counterexample :
  Frontend.Chunk.chunkIndex Scenario.chunk1 = Frontend.Chunk.chunkIndex Scenario.chunk1' /\
  Frontend.Chunk.s3Key Scenario.chunk1 = Frontend.Chunk.s3Key Scenario.chunk1' /\
  Frontend.Chunk.pageCount Scenario.chunk1 = Frontend.Chunk.pageCount Scenario.chunk1' /\
  Frontend.Chunk.sizeBytes Scenario.chunk1 = Frontend.Chunk.sizeBytes Scenario.chunk1' /\
  Scenario.chunk1 <> Scenario.chunk1'.
Proof.
  repeat split; try reflexivity. intros H. discriminate H.
Qed.

(** A 7 MB PDF in a new chat: handle request, upload and split request all
    succeed, and the two chunks of the answer become two S3 attachments. *)
Example split_upload_run :
  let st' := snd (Frontend.handleLargeFileUpload Scenario.constants Scenario.env
                    Scenario.new_chat Scenario.big_pdf true Scenario.empty_state) in
  map Frontend.url (Frontend.calls st')
  = [ "https://api.example/conversation/temp/documents/upload";
      "https://bucket.example/put";
      "https://api.example/conversation/temp/documents/split-pdf" ] /\
  map Frontend.S3AttachedFile.name (Frontend.s3AttachedFiles st')
  = ["big_part1.pdf"; "big_part2.pdf"] /\
  map Frontend.S3AttachedFile.type (Frontend.s3AttachedFiles st')
  = ["application/pdf"; "application/pdf"] /\
  Frontend.snackbar st' = [Frontend.PdfSplit 2].
Proof. vm_compute. repeat split; reflexivity. Qed.

(** In a conversation the same requests carry its id. *)
Example conversation_upload_run :
  map Frontend.url
    (Frontend.calls (snd (Frontend.handleLargeFileUpload Scenario.constants Scenario.env
                            Scenario.in_conversation Scenario.notes false
                            Scenario.empty_state)))
  = [ "https://api.example/conversation/01HZX/documents/upload";
      "https://bucket.example/put" ].
Proof. vm_compute. reflexivity. Qed.

(** When the handle request is refused, nothing is uploaded or attached and
    the upload error is shown. *)
Example refused_upload_run :
  let st' := snd (Frontend.handleLargeFileUpload Scenario.constants Scenario.refusing_env
                    Scenario.new_chat Scenario.big_pdf true Scenario.empty_state) in
  map Frontend.method (Frontend.calls st') = ["POST"] /\
  Frontend.s3AttachedFiles st' = [] /\
  Frontend.snackbar st' = [Frontend.FileUploadFailed].
Proof. vm_compute. repeat split; reflexivity. Qed.

(** Keys of the caller's conversation and of the caller's temp scope are
    granted; another owner's key is denied. *)
Example download_guard_cases :
  Broker.IssueDownloadHandle "u1" "c1" "conversations/u1/c1/documents/a.pdf" = Broker.Granted /\
  Broker.IssueDownloadHandle "u1" "c1" "conversations/u1/temp/documents/a.pdf" = Broker.Granted /\
  Broker.IssueDownloadHandle "u1" "c1" "conversations/u2/c1/documents/a.pdf" = Broker.AccessDenied /\
  Broker.IssueDownloadHandle "u1" "c1" "conversations/u1/c2/documents/a.pdf" = Broker.AccessDenied.
Proof. repeat split; reflexivity. Qed.

Example endsWith_cases :
  Js.endsWith "report.pdf" ".pdf" = true /\
  Js.endsWith "pdf" ".pdf" = false /\
  Js.endsWith "report.PDF" ".pdf" = false /\
  Js.endsWith "report.pdf.txt" ".pdf" = false.
Proof. repeat split; reflexivity. Qed.

(** * Further properties of the upload path *)

Ltac unfold_run :=
  unfold Frontend.handleAttachedFileRead, Frontend.handleLargeFileUpload,
    Frontend.getDocumentUploadUrl,
    Frontend.uploadFileToS3, Frontend.splitPDF, Frontend.getAuthHeaders,
    Frontend.fetch_json, Frontend.try_catch, Frontend.bind, Frontend.gets,
    Frontend.log_call, Frontend.open, Frontend.modify,
    Frontend.throw, Frontend.ret.

Ltac case_answer :=
  match goal with
  | |- context [Frontend.fetchAuthSession ?e ?h] =>
      destruct (Frontend.fetchAuthSession e h) as [?|?] eqn:?
  | |- context [Frontend.answer_upload ?e ?h] =>
      destruct (Frontend.answer_upload e h) as [?|?|?] eqn:?
  | |- context [Frontend.answer_put ?e ?h] =>
      destruct (Frontend.answer_put e h) as [?|?|[]] eqn:?
  | |- context [Frontend.answer_split ?e ?h] =>
      destruct (Frontend.answer_split e h) as [?|?|?] eqn:?
  end; cbn.

Ltac fold_pushes :=
  match goal with
  | |- context [Frontend.forEach ?l (fun x => Frontend.pushS3File (@?g x)) ?s] =>
      rewrite (forEach_pushS3File g l s); cbn
  end.

Section UploadFacts.

Import Frontend.

Variable K : Constants.
Variable env : Env.
Variable props : Props.

(** No error leaves the upload path: whatever the session and the servers
    answer, the handler returns normally. *)
Theorem upload_never_throws (file : File.t) (shouldSplit : bool) (st : State) :
  fst (handleLargeFileUpload K env props file shouldSplit st) = inr tt /\
  fst (handleAttachedFileRead K env props file st) = inr tt.
Proof.
  split.
  - destruct shouldSplit; unfold_run; cbn; repeat case_answer; try fold_pushes;
      reflexivity.
  - unfold Frontend.handleAttachedFileRead.
    destruct (MAX_SUPPORTED_FILE_SIZE_BYTES K <? File.size file)%N; [reflexivity|].
    destruct (String.eqb (File.type file) "application/pdf"
              && (BEDROCK_MAX_FILE_SIZE_BYTES K <? File.size file)%N);
      unfold_run; cbn; repeat case_answer; try fold_pushes; reflexivity.
Qed.

(** The upload path only ever appends: images and regular attachments are
    untouched, the S3 attachments, the snackbar history and the call log
    keep what they held, in place. *)
Theorem upload_only_appends (file : File.t) (st : State) :
  let st' := snd (handleAttachedFileRead K env props file st) in
  base64EncodedImages st' = base64EncodedImages st /\
  attachedFiles st' = attachedFiles st /\
  (exists added, s3AttachedFiles st' = s3AttachedFiles st ++ added) /\
  (exists shown, snackbar st' = snackbar st ++ shown) /\
  (exists issued, calls st' = calls st ++ issued).
Proof.
  cbv zeta. unfold Frontend.handleAttachedFileRead.
  destruct (MAX_SUPPORTED_FILE_SIZE_BYTES K <? File.size file)%N.
  - cbn. repeat split; try reflexivity;
      first [ exists []; rewrite app_nil_r; reflexivity | eexists; reflexivity ].
  - destruct (String.eqb (File.type file) "application/pdf"
              && (BEDROCK_MAX_FILE_SIZE_BYTES K <? File.size file)%N);
      unfold_run; cbn; repeat case_answer; try fold_pushes;
      rewrite <- ?app_assoc; cbn [app];
      (split; [reflexivity|]); (split; [reflexivity|]);
      repeat split;
      first [ exists []; rewrite app_nil_r; reflexivity | eexists; reflexivity ].
Qed.

End UploadFacts.

Section UploadProtocol.

Import Frontend.

Variable K : Constants.
Variable env : Env.
Variable props : Props.

(** The requests of one upload come in a fixed order and stop at the first
    failure: the handle request first; the put only after a handle was
    issued, to the URL of that handle; the split request only in the split
    branch, after the put succeeded, for the key of that handle. *)
Theorem upload_requests_in_order (file : File.t) (shouldSplit : bool) (st : State) :
  exists issued,
    calls (snd (handleLargeFileUpload K env props file shouldSplit st))
    = calls st ++ issued /\
    (issued = [] \/
     exists c1, method c1 = "POST" /\
       url c1 = upload_url env (Js.or_else (conversationId props) "temp") /\
       (issued = [c1] \/
        exists handle c2,
          answer_upload env (calls st ++ [c1]) = Ok handle /\
          method c2 = "PUT" /\ url c2 = uploadUrl handle /\ body c2 = FileBody file /\
          (issued = [c1; c2] \/
           exists c3,
             issued = [c1; c2; c3] /\ shouldSplit = true /\
             answer_put env (calls st ++ [c1; c2]) = Ok tt /\
             method c3 = "POST" /\
             url c3 = split_url env (Js.or_else (conversationId props) "temp") /\
             body c3 = SplitJson {| s3_key := s3Key handle;
                                    max_size_mb := Some (BEDROCK_MAX_FILE_SIZE_MB K) |}))).
Proof.
  destruct shouldSplit; unfold_run; cbn; repeat case_answer; try fold_pushes;
    rewrite <- ?app_assoc in *; cbn [app] in *;
    match goal with
    | |- exists issued, calls st = calls st ++ issued /\ _ =>
        exists []; split; [rewrite app_nil_r; reflexivity | left; reflexivity]
    | |- exists issued, calls st ++ [?c1] = calls st ++ issued /\ _ =>
        exists [c1]; split; [reflexivity|]; right; exists c1;
        split; [reflexivity|]; split; [reflexivity|]; left; reflexivity
    | |- exists issued, calls st ++ [?c1; ?c2] = calls st ++ issued /\ _ =>
        exists [c1; c2]; split; [reflexivity|]; right; exists c1;
        split; [reflexivity|]; split; [reflexivity|]; right;
        eexists; exists c2; split; [eassumption|];
        split; [reflexivity|]; split; [reflexivity|]; split; [reflexivity|];
        left; reflexivity
    | |- exists issued, calls st ++ [?c1; ?c2; ?c3] = calls st ++ issued /\ _ =>
        exists [c1; c2; c3]; split; [reflexivity|]; right; exists c1;
        split; [reflexivity|]; split; [reflexivity|]; right;
        eexists; exists c2; split; [eassumption|];
        split; [reflexivity|]; split; [reflexivity|]; split; [reflexivity|];
        right; exists c3; split; [reflexivity|]; split; [reflexivity|];
        split; [eassumption|]; repeat split
    end.
Qed.

(** An upload without split ends in one of two ways: the upload error is
    shown and nothing is attached, or the handle was issued and the put
    succeeded, and then exactly one S3 attachment is appended, with the
    file's own name, type and size and the key of the handle, and no message
    is shown. *)
Theorem plain_upload_outcome (file : File.t) (st : State) :
  let st' := snd (handleLargeFileUpload K env props file false st) in
  (s3AttachedFiles st' = s3AttachedFiles st /\
   snackbar st' = snackbar st ++ [FileUploadFailed]) \/
  (exists c1 c2 handle,
     calls st' = calls st ++ [c1; c2] /\
     answer_upload env (calls st ++ [c1]) = Ok handle /\
     answer_put env (calls st ++ [c1; c2]) = Ok tt /\
     s3AttachedFiles st'
     = s3AttachedFiles st
       ++ [ {| S3AttachedFile.name := File.name file;
               S3AttachedFile.type := File.type file;
               S3AttachedFile.size := File.size file;
               S3AttachedFile.s3Key := s3Key handle |} ] /\
     snackbar st' = snackbar st).
Proof.
  cbv zeta. unfold_run; cbn; repeat case_answer;
    rewrite <- ?app_assoc in *; cbn [app] in *;
    first
      [ left; split; reflexivity
      | right; eexists; eexists; eexists; split; [reflexivity|];
        split; [eassumption|]; split; [eassumption|]; split; reflexivity ].
Qed.

(** The bearer token goes to the conversation API only: a put to the
    presigned URL carries the file's content type and nothing else, and a
    request to the API carries the JSON content type and, exactly when the
    session fetched just before that request (with the calls logged until
    then) has an id token, that token as bearer authorization. *)
Theorem token_stays_with_api (file : File.t) (shouldSplit : bool) (st : State) :
  exists issued,
    calls (snd (handleLargeFileUpload K env props file shouldSplit st))
    = calls st ++ issued /\
    forall before c after,
      issued = before ++ c :: after ->
      (method c = "PUT" -> headers c = [("Content-Type", File.type file)]) /\
      (method c = "POST" ->
         exists idToken,
           fetchAuthSession env (calls st ++ before) = inr idToken /\
           headers c = ("Content-Type", "application/json")
                       :: match idToken with
                          | Some token => [("Authorization", "Bearer " +:+ token)]
                          | None => []
                          end).
Proof.
  destruct shouldSplit; unfold_run; cbn; repeat case_answer; try fold_pushes;
    rewrite <- ?app_assoc in *; cbn [app] in *;
    (eexists; split;
     [ first [ reflexivity | symmetry; apply app_nil_r ] | ]);
    intros before c after Hat;
    destruct before as [|c1 [|c2 [|c3 before]]]; cbn [app] in Hat;
    try discriminate Hat;
    try (destruct before; discriminate Hat);
    injection Hat as; subst;
    rewrite ?app_nil_r;
    (split; intros Hm; cbn in Hm |- *; try discriminate Hm; try reflexivity);
    eexists; (split; [eassumption | reflexivity]).
Qed.

(** No silent failure: a run of the upload handler shows at most one
    message, and when it shows none the file has been attached. *)
Theorem no_silent_failure (file : File.t) (st : State) :
  let st' := snd (handleAttachedFileRead K env props file st) in
  exists shown,
    snackbar st' = snackbar st ++ shown /\
    (length shown <= 1)%nat /\
    (shown = [] ->
     exists key,
       s3AttachedFiles st'
       = s3AttachedFiles st
         ++ [ {| S3AttachedFile.name := File.name file;
                 S3AttachedFile.type := File.type file;
                 S3AttachedFile.size := File.size file;
                 S3AttachedFile.s3Key := key |} ]).
Proof.
  cbv zeta. unfold Frontend.handleAttachedFileRead.
  destruct (MAX_SUPPORTED_FILE_SIZE_BYTES K <? File.size file)%N.
  - cbn. eexists. split; [reflexivity|]. split; [cbn; lia|discriminate].
  - destruct (String.eqb (File.type file) "application/pdf"
              && (BEDROCK_MAX_FILE_SIZE_BYTES K <? File.size file)%N);
      unfold_run; cbn; repeat case_answer; try fold_pushes;
      first
        [ exists []; split; [rewrite app_nil_r; reflexivity|];
          split; [cbn; lia|]; intros _; eexists; reflexivity
        | eexists; split; [reflexivity|]; split; [cbn; lia|discriminate] ].
Qed.

(** Without a session nothing is requested: when fetching the session
    throws, the utilities throw that error before any call, and the upload
    handler shows the upload error, with no call issued and nothing
    attached. *)
Theorem no_session_no_request (file : File.t) (shouldSplit : bool) (st : State)
    (e : Exn) (conversationId : string) (uploadRequest : DocumentUploadRequest)
    (splitRequest : PDFSplitRequest) :
  fetchAuthSession env (calls st) = inl e ->
  getDocumentUploadUrl env conversationId uploadRequest st = (inl e, st) /\
  splitPDF env conversationId splitRequest st = (inl e, st) /\
  exists st',
    handleLargeFileUpload K env props file shouldSplit st = (inr tt, st') /\
    calls st' = calls st /\
    same_attachments st st' /\
    snackbar st' = snackbar st ++ [FileUploadFailed].
Proof.
  intros Hs. split; [|split].
  - unfold Frontend.getDocumentUploadUrl, Frontend.getAuthHeaders, bind, gets.
    rewrite Hs. reflexivity.
  - unfold Frontend.splitPDF, Frontend.getAuthHeaders, bind, gets.
    rewrite Hs. reflexivity.
  - destruct shouldSplit; unfold_run; cbn; rewrite Hs; cbn;
      (eexists; split; [reflexivity|]; repeat split; reflexivity).
Qed.

End UploadProtocol.

(** * The store *)

Lemma splice1_in_range {A} (i : nat) (l : list A) :
  (i < length l)%nat ->
  Store.splice1 (Z.of_nat i) l = take i l ++ drop (S i) l.
Proof.
  intros Hi. unfold Store.splice1.
  destruct (Z.ltb_spec (Z.of_nat i) 0) as [Hneg|_]; [lia|].
  rewrite Z.min_l by lia. rewrite Nat2Z.id. reflexivity.
Qed.

Lemma splice1_lookup {A} (i j : nat) (l : list A) :
  (i < length l)%nat ->
  Store.splice1 (Z.of_nat i) l !! j = if (j <? i)%nat then l !! j else l !! S j.
Proof.
  intros Hi. rewrite splice1_in_range by exact Hi.
  destruct (Nat.ltb_spec j i) as [Hlt|Hge].
  - rewrite lookup_app_l by (rewrite length_take; lia).
    apply lookup_take_lt. exact Hlt.
  - rewrite lookup_app_r by (rewrite length_take; lia).
    rewrite length_take, lookup_drop. f_equal. lia.
Qed.

Lemma splice1_length {A} (i : nat) (l : list A) :
  (i < length l)%nat -> S (length (Store.splice1 (Z.of_nat i) l)) = length l.
Proof.
  intros Hi. rewrite splice1_in_range by exact Hi.
  rewrite length_app, length_take, length_drop. lia.
Qed.

Lemma splice1_past_end {A} (index : Z) (l : list A) :
  (Z.of_nat (length l) <= index)%Z -> Store.splice1 index l = l.
Proof.
  intros Hi. unfold Store.splice1.
  destruct (Z.ltb_spec index 0) as [Hneg|_]; [lia|].
  rewrite Z.min_r by lia. rewrite Nat2Z.id.
  rewrite take_ge, drop_ge by lia. apply app_nil_r.
Qed.

Lemma splice1_pushed {A} (l : list A) (x : A) :
  Store.splice1 (Z.of_nat (length l)) (l ++ [x]) = l /\
  Store.splice1 (-1) (l ++ [x]) = l.
Proof.
  assert (Hlast : take (length l) (l ++ [x]) ++ drop (S (length l)) (l ++ [x]) = l).
  { rewrite take_app_length, drop_ge by (rewrite length_app; simpl; lia).
    apply app_nil_r. }
  split.
  - rewrite splice1_in_range by (rewrite length_app; simpl; lia). exact Hlast.
  - unfold Store.splice1. change (-1 <? 0)%Z with true. cbv iota.
    rewrite length_app. simpl length.
    replace (Z.to_nat (Z.max (Z.of_nat (length l + 1) + -1) 0)) with (length l) by lia.
    exact Hlast.
Qed.

Lemma splice1_spec {A} (index : nat) (l : list A) :
  ((index < length l)%nat ->
     S (length (Store.splice1 (Z.of_nat index) l)) = length l /\
     forall j, Store.splice1 (Z.of_nat index) l !! j
               = if (j <? index)%nat then l !! j else l !! S j) /\
  ((length l <= index)%nat -> Store.splice1 (Z.of_nat index) l = l).
Proof.
  split.
  - intros H. split; [apply splice1_length; exact H|].
    intros j. apply splice1_lookup. exact H.
  - intros H. apply splice1_past_end. lia.
Qed.

Section StoreFacts.

Import Frontend.

(** Removing the S3 attachment at a valid index takes out that one only:
    the list is one shorter, the entries before it stay where they were,
    the entries after it move up by one, and the other lists of the store
    are untouched. An index at or past the end removes nothing. The same
    holds of the regular attachments and of the images. *)
Theorem remove_takes_out_one (index : nat) (st : State) :
  let after_s3 := snd (Store.removeS3File (Z.of_nat index) st) in
  let after_text := snd (Store.removeTextFile (Z.of_nat index) st) in
  let after_image := snd (Store.removeBase64EncodedImage (Z.of_nat index) st) in
  ((index < length (s3AttachedFiles st))%nat ->
     S (length (s3AttachedFiles after_s3)) = length (s3AttachedFiles st) /\
     forall j, s3AttachedFiles after_s3 !! j
               = if (j <? index)%nat then s3AttachedFiles st !! j
                 else s3AttachedFiles st !! S j) /\
  ((length (s3AttachedFiles st) <= index)%nat ->
     s3AttachedFiles after_s3 = s3AttachedFiles st) /\
  (attachedFiles after_s3 = attachedFiles st /\
   base64EncodedImages after_s3 = base64EncodedImages st) /\
  ((index < length (attachedFiles st))%nat ->
     S (length (attachedFiles after_text)) = length (attachedFiles st) /\
     forall j, attachedFiles after_text !! j
               = if (j <? index)%nat then attachedFiles st !! j
                 else attachedFiles st !! S j) /\
  ((length (attachedFiles st) <= index)%nat ->
     attachedFiles after_text = attachedFiles st) /\
  (s3AttachedFiles after_text = s3AttachedFiles st /\
   base64EncodedImages after_text = base64EncodedImages st) /\
  ((index < length (base64EncodedImages st))%nat ->
     S (length (base64EncodedImages after_image)) = length (base64EncodedImages st) /\
     forall j, base64EncodedImages after_image !! j
               = if (j <? index)%nat then base64EncodedImages st !! j
                 else base64EncodedImages st !! S j) /\
  ((length (base64EncodedImages st) <= index)%nat ->
     base64EncodedImages after_image = base64EncodedImages st) /\
  (s3AttachedFiles after_image = s3AttachedFiles st /\
   attachedFiles after_image = attachedFiles st).
Proof.
  cbv zeta. cbn.
  destruct (splice1_spec index (s3AttachedFiles st)) as [Hs3 Hs3'].
  destruct (splice1_spec index (attachedFiles st)) as [Htext Htext'].
  destruct (splice1_spec index (base64EncodedImages st)) as [Himage Himage'].
  split; [exact Hs3|]. split; [exact Hs3'|]. split; [split; reflexivity|].
  split; [exact Htext|]. split; [exact Htext'|]. split; [split; reflexivity|].
  split; [exact Himage|]. split; [exact Himage'|]. split; reflexivity.
Qed.

(** Pushing an attachment and then removing the last entry, by its index or
    by the index -1, gives back the store as it was; so for the S3
    attachments, the regular attachments and the images. *)
Theorem push_then_remove_last (st : State) (s3File : S3AttachedFile.t)
    (textFile : AttachedFile.t) (image : string) :
  snd ((pushS3File s3File ;;
        Store.removeS3File (Z.of_nat (length (s3AttachedFiles st)))) st) = st /\
  snd ((pushS3File s3File ;; Store.removeS3File (-1)) st) = st /\
  snd ((Store.pushTextFile textFile ;;
        Store.removeTextFile (Z.of_nat (length (attachedFiles st)))) st) = st /\
  snd ((Store.pushTextFile textFile ;; Store.removeTextFile (-1)) st) = st /\
  snd ((Store.pushBase64EncodedImage image ;;
        Store.removeBase64EncodedImage (Z.of_nat (length (base64EncodedImages st)))) st)
  = st /\
  snd ((Store.pushBase64EncodedImage image ;; Store.removeBase64EncodedImage (-1)) st)
  = st.
Proof.
  destruct st as [images files s3Files shown issued]. cbn.
  destruct (splice1_pushed s3Files s3File) as [H1 H2].
  destruct (splice1_pushed files textFile) as [H3 H4].
  destruct (splice1_pushed images image) as [H5 H6].
  rewrite H1, H2, H3, H4, H5, H6. repeat split; reflexivity.
Qed.

End StoreFacts.

(** * Sending *)

Section SendFacts.

Import Frontend.

Variable disabledImageUpload : bool.
Variable reasoningEnabled : bool.
Variable disabledSend : option bool.
Variable onSend : Send.Sent -> M unit.

(** When [onSend] returns, the text is reset and the images, the regular
    attachments and the S3 attachments are all cleared, whatever they were;
    when [onSend] throws, the error goes to the caller and nothing is reset
    or cleared. *)
Theorem send_clears_on_success (content : string) (st st1 : State) :
  (onSend (Send.onSendArguments disabledImageUpload reasoningEnabled content st) st
   = (inr tt, st1) ->
   exists st',
     Send.sendContent disabledImageUpload reasoningEnabled onSend content st
     = (inr EmptyString, st') /\
     base64EncodedImages st' = [] /\ attachedFiles st' = [] /\
     s3AttachedFiles st' = [] /\
     snackbar st' = snackbar st1 /\ calls st' = calls st1) /\
  (forall e,
     onSend (Send.onSendArguments disabledImageUpload reasoningEnabled content st) st
     = (inl e, st1) ->
     Send.sendContent disabledImageUpload reasoningEnabled onSend content st
     = (inl e, st1)).
Proof.
  unfold Send.sendContent, bind, gets. split.
  - intros ->. eexists. split; [reflexivity|]. cbn. repeat split; reflexivity.
  - intros e ->. reflexivity.
Qed.

(** Attachments are sent once: after a send that returned, the arguments of
    the next send carry no image, no attachment and no S3 attachment. *)
Theorem attachments_sent_once (content next : string) (st st' : State) (c : string) :
  Send.sendContent disabledImageUpload reasoningEnabled onSend content st = (inr c, st') ->
  Send.onSendArguments disabledImageUpload reasoningEnabled next st'
  = {| Send.content := next;
       Send.enableReasoning := reasoningEnabled;
       Send.base64EncodedImages := None;
       Send.attachments := None;
       Send.s3Attachments := None |}.
Proof.
  unfold Send.sendContent, bind, gets.
  destruct (onSend _ st) as [[e|[]] st1]; [discriminate|].
  cbn. intros H. injection H as _ <-.
  unfold Send.onSendArguments. cbn. rewrite andb_false_r. reflexivity.
Qed.

(** Pressing Enter on an empty text sends nothing: [onSend] is not called
    and the store, attachments included, stays as it is. Neither does
    Shift+Enter or any other key send, whatever the text, nor Enter while
    sending is disabled. Enter on a text that may be sent calls [onSend]
    with the arguments built from that text and the store: when [onSend]
    returns, the listener leaves what [onSend] left but for an empty text
    and an empty store; when it throws, the error leaves the listener and
    nothing is reset. *)
Theorem enter_sends_text_only (key : string) (shiftKey : bool) (content : string)
    (st : State) :
  (forall c rest,
     content = String c rest -> disabledSend <> Some true ->
     key = "Enter" -> shiftKey = false ->
     Send.keypressListener disabledImageUpload reasoningEnabled disabledSend onSend
       key shiftKey content st
     = match onSend (Send.onSendArguments disabledImageUpload reasoningEnabled content st)
                    st with
       | (inr _, st1) =>
           (inr (true, EmptyString),
            {| base64EncodedImages := [];
               attachedFiles := [];
               s3AttachedFiles := [];
               snackbar := snackbar st1;
               calls := calls st1 |})
       | (inl e, st1) => (inl e, st1)
       end) /\
  (content = EmptyString ->
   Send.keypressListener disabledImageUpload reasoningEnabled disabledSend onSend
     key shiftKey content st
   = (inr (String.eqb key "Enter" && negb shiftKey, content), st)) /\
  (String.eqb key "Enter" && negb shiftKey = false ->
   Send.keypressListener disabledImageUpload reasoningEnabled disabledSend onSend
     key shiftKey content st
   = (inr (false, content), st)) /\
  (disabledSend = Some true ->
   Send.keypressListener disabledImageUpload reasoningEnabled disabledSend onSend
     key shiftKey content st
   = (inr (String.eqb key "Enter" && negb shiftKey, content), st)).
Proof.
  unfold Send.keypressListener, Send.isDisabledSend. split; [|split; [|split]].
  - intros c rest -> Hd -> ->. cbn.
    assert (match disabledSend with Some b => b | None => false end = false) as ->.
    { destruct disabledSend as [[]|]; [congruence|reflexivity|reflexivity]. }
    cbn. unfold Send.sendContent, bind, gets.
    destruct (onSend _ st) as [[e|[]] st1]; reflexivity.
  - intros ->. destruct (String.eqb key "Enter" && negb shiftKey); reflexivity.
  - intros ->. reflexivity.
  - intros ->. rewrite orb_true_r.
    destruct (String.eqb key "Enter" && negb shiftKey); reflexivity.
Qed.

End SendFacts.

Section UploadThenSend.

Import Frontend.

Variable K : Constants.
Variable env : Env.
Variable props : Props.
Variable disabledImageUpload : bool.
Variable reasoningEnabled : bool.

(** What was uploaded is what is sent: after an upload without split, either
    the upload error is shown, or the next send carries the S3 attachments a
    send before the upload would have carried and, behind them, one more for
    the file, with the file's name, type and size and the key of the handle
    the backend issued. *)
Theorem uploaded_file_is_sent (file : File.t) (content : string) (st : State) :
  let st' := snd (handleLargeFileUpload K env props file false st) in
  let before :=
    match Send.s3Attachments
            (Send.onSendArguments disabledImageUpload reasoningEnabled content st) with
    | Some l => l
    | None => []
    end in
  snackbar st' = snackbar st ++ [FileUploadFailed] \/
  (exists c1 handle,
     answer_upload env (calls st ++ [c1]) = Ok handle /\
     Send.s3Attachments
       (Send.onSendArguments disabledImageUpload reasoningEnabled content st')
     = Some (before
             ++ [ {| Send.S3AttachmentType.fileName := File.name file;
                     Send.S3AttachmentType.fileType := File.type file;
                     Send.S3AttachmentType.s3Key := s3Key handle;
                     Send.S3AttachmentType.fileSize := File.size file |} ])).
Proof.
  cbv zeta. unfold_run; cbn; repeat case_answer;
    first
      [ left; reflexivity
      | right; eexists; eexists; split; [eassumption|];
        unfold Send.onSendArguments; cbn;
        rewrite map_app, length_app; cbn;
        destruct (s3AttachedFiles st); cbn; reflexivity ].
Qed.

End UploadThenSend.

(** * Selecting files *)

Section SelectionFacts.

Import Frontend.

Variable K : Constants.
Variable acceptMediaType : list string.

Lemma omap_cons {A B} (f : A -> option B) (x : A) (l : list A) :
  omap f (x :: l) = match f x with Some y => y :: omap f l | None => omap f l end.
Proof. reflexivity. Qed.

Lemma dispatch_run (fileList : list File.t) (st : State) :
  dispatch K acceptMediaType fileList st
  = (inr (omap (route K acceptMediaType) fileList),
     {| base64EncodedImages := base64EncodedImages st;
        attachedFiles := attachedFiles st;
        s3AttachedFiles := s3AttachedFiles st;
        snackbar := snackbar st ++ omap (Selection.answered K acceptMediaType) fileList;
        calls := calls st |}).
Proof.
  revert st. induction fileList as [|file rest IH]; intros st.
  - cbn. rewrite app_nil_r. destruct st; reflexivity.
  - cbn [Frontend.dispatch]. rewrite !omap_cons.
    unfold Frontend.route at 1, Selection.answered at 1,
      Frontend.handleAttachedFileRead_until_await.
    destruct (has_supported_extension K (File.name file)).
    + destruct (MAX_SUPPORTED_FILE_SIZE_BYTES K <? File.size file)%N.
      * unfold bind, open, modify. cbn beta iota. rewrite IH. cbn.
        rewrite <- app_assoc. reflexivity.
      * unfold bind, ret. cbn beta iota. rewrite IH. reflexivity.
    + destruct (has_accepted_media_type acceptMediaType (File.name file)).
      * unfold bind. rewrite IH. reflexivity.
      * unfold bind at 1. unfold open, modify. rewrite IH. cbn.
        rewrite <- app_assoc. reflexivity.
Qed.

(** The run of [onChangeFile] on a selection that passes the count check. *)
Lemma onChangeFile_within_limit (fileList : list File.t) (st : State) :
  (length (List.filter (fun f => has_supported_extension K (AttachedFile.name f))
                       (attachedFiles st))
   + length (s3AttachedFiles st)
   + length (List.filter (fun f => has_supported_extension K (File.name f)) fileList)
   <= MAX_ATTACHED_FILES K)%nat ->
  onChangeFile K acceptMediaType fileList st
  = (inr (omap (route K acceptMediaType) fileList),
     {| base64EncodedImages := base64EncodedImages st;
        attachedFiles := attachedFiles st;
        s3AttachedFiles := s3AttachedFiles st;
        snackbar := snackbar st ++ omap (Selection.answered K acceptMediaType) fileList;
        calls := calls st |}).
Proof.
  intros Hfit. unfold Frontend.onChangeFile, bind, gets.
  destruct (Nat.ltb_spec (MAX_ATTACHED_FILES K)
              (length (List.filter (fun f => has_supported_extension K (AttachedFile.name f))
                                   (attachedFiles st))
               + length (s3AttachedFiles st)
               + length (List.filter (fun f => has_supported_extension K (File.name f))
                                     fileList))) as [Hover|_]; [lia|].
  apply dispatch_run.
Qed.

Lemma routed_or_not (fileList : list File.t) :
  (length (omap (route K acceptMediaType) fileList)
   + length (List.filter
               (fun f => negb (has_supported_extension K (File.name f))
                         && negb (has_accepted_media_type acceptMediaType (File.name f)))
               fileList)
   = length fileList)%nat.
Proof.
  induction fileList as [|file rest IH]; [reflexivity|].
  rewrite omap_cons. cbn [List.filter]. unfold Frontend.route at 1.
  destruct (has_supported_extension K (File.name file)); cbn; [lia|].
  destruct (has_accepted_media_type acceptMediaType (File.name file)); cbn; lia.
Qed.

(** The list the chooser accepts matches a name exactly when the name has a
    supported document extension or an accepted media type. *)
Lemma chooser_accepts_spec (file : File.t) :
  Selection.chooser_accepts K acceptMediaType file
  = has_supported_extension K (File.name file)
    || has_accepted_media_type acceptMediaType (File.name file).
Proof.
  unfold Selection.chooser_accepts, Chooser.extendedAcceptMediaType,
    Frontend.has_supported_extension, Frontend.has_accepted_media_type.
  rewrite existsb_app. apply orb_comm.
Qed.

Lemma started_files (fileList : list File.t) :
  map Selection.file_of (omap (route K acceptMediaType) fileList)
  = List.filter (Selection.chooser_accepts K acceptMediaType) fileList.
Proof.
  induction fileList as [|file rest IH]; [reflexivity|].
  rewrite omap_cons. cbn [List.filter]. rewrite chooser_accepts_spec.
  unfold Frontend.route at 1.
  destruct (has_supported_extension K (File.name file)); cbn; [rewrite IH; reflexivity|].
  destruct (has_accepted_media_type acceptMediaType (File.name file)); cbn;
    rewrite IH; reflexivity.
Qed.

Lemma unsupported_answers (fileList : list File.t) :
  List.filter Selection.is_unsupported_format
    (omap (Selection.answered K acceptMediaType) fileList)
  = map (fun _ => UnsupportedFileFormat)
        (List.filter (fun f => negb (Selection.chooser_accepts K acceptMediaType f))
                     fileList).
Proof.
  induction fileList as [|file rest IH]; [reflexivity|].
  rewrite omap_cons. cbn [List.filter]. rewrite chooser_accepts_spec.
  unfold Selection.answered at 1.
  destruct (has_supported_extension K (File.name file)); cbn.
  - destruct (MAX_SUPPORTED_FILE_SIZE_BYTES K <? File.size file)%N; cbn; exact IH.
  - destruct (has_accepted_media_type acceptMediaType (File.name file)); cbn;
      rewrite IH; reflexivity.
Qed.

Lemma size_answers (fileList : list File.t) :
  List.filter (fun m => negb (Selection.is_unsupported_format m))
    (omap (Selection.answered K acceptMediaType) fileList)
  = map (fun _ => FileSizeExceeded (MAX_SUPPORTED_FILE_SIZE_MB K))
        (List.filter (fun f => has_supported_extension K (File.name f)
                               && (MAX_SUPPORTED_FILE_SIZE_BYTES K <? File.size f)%N)
                     fileList).
Proof.
  induction fileList as [|file rest IH]; [reflexivity|].
  rewrite omap_cons. cbn [List.filter]. unfold Selection.answered at 1.
  destruct (has_supported_extension K (File.name file)); cbn.
  - destruct (MAX_SUPPORTED_FILE_SIZE_BYTES K <? File.size file)%N; cbn;
      rewrite IH; reflexivity.
  - destruct (has_accepted_media_type acceptMediaType (File.name file)); cbn; exact IH.
Qed.

(** Every selected file is accounted for once: when the selection passes
    the count check, each file has, by the time [onChangeFile] returns,
    either been handed to its handler or been answered with one
    unsupported-format message. The only other messages shown by then are
    the size errors of the upload handler, one for each document handed to
    it that is over the maximum supported size; the messages come in
    selection order, nothing is attached and no request is made. *)
Theorem selected_files_accounted (fileList : list File.t) (st : State) :
  (length (List.filter (fun f => has_supported_extension K (AttachedFile.name f))
                       (attachedFiles st))
   + length (s3AttachedFiles st)
   + length (List.filter (fun f => has_supported_extension K (File.name f)) fileList)
   <= MAX_ATTACHED_FILES K)%nat ->
  exists started st' shown,
    onChangeFile K acceptMediaType fileList st = (inr started, st') /\
    snackbar st' = snackbar st ++ shown /\
    shown = omap (Selection.answered K acceptMediaType) fileList /\
    (length started
     + length (List.filter Selection.is_unsupported_format shown)
     = length fileList)%nat /\
    List.filter (fun m => negb (Selection.is_unsupported_format m)) shown
    = map (fun _ => FileSizeExceeded (MAX_SUPPORTED_FILE_SIZE_MB K))
          (List.filter (fun f => has_supported_extension K (File.name f)
                                 && (MAX_SUPPORTED_FILE_SIZE_BYTES K <? File.size f)%N)
                       fileList) /\
    same_attachments st st' /\ calls st' = calls st.
Proof.
  intros Hfit. rewrite (onChangeFile_within_limit fileList st Hfit).
  eexists. eexists. eexists. split; [reflexivity|]. split; [reflexivity|].
  split; [reflexivity|]. split; [|split; [apply size_answers|]].
  - rewrite unsupported_answers, length_map.
    rewrite <- (routed_or_not fileList). f_equal. f_equal.
    apply filter_ext. intros f. rewrite chooser_accepts_spec.
    apply negb_orb.
  - repeat split; reflexivity.
Qed.

(** The chooser and the dispatch agree: of a selection that passes the
    count check, [onChangeFile] hands to a handler exactly the files whose
    name ends with one of the entries of the list the file chooser accepts,
    in selection order, and answers each other file, and no file the chooser
    accepts, with the unsupported-format message. *)
Theorem chooser_and_dispatch_agree (fileList : list File.t) (st : State) :
  (length (List.filter (fun f => has_supported_extension K (AttachedFile.name f))
                       (attachedFiles st))
   + length (s3AttachedFiles st)
   + length (List.filter (fun f => has_supported_extension K (File.name f)) fileList)
   <= MAX_ATTACHED_FILES K)%nat ->
  exists started st' shown,
    onChangeFile K acceptMediaType fileList st = (inr started, st') /\
    snackbar st' = snackbar st ++ shown /\
    map Selection.file_of started
    = List.filter
        (fun f => existsb (fun extension => Js.endsWith (File.name f) extension)
                          (Chooser.extendedAcceptMediaType K acceptMediaType))
        fileList /\
    List.filter Selection.is_unsupported_format shown
    = map (fun _ => UnsupportedFileFormat)
          (List.filter
             (fun f => negb (existsb (fun extension => Js.endsWith (File.name f) extension)
                                     (Chooser.extendedAcceptMediaType K acceptMediaType)))
             fileList).
Proof.
  intros Hfit. rewrite (onChangeFile_within_limit fileList st Hfit).
  eexists. eexists. eexists. split; [reflexivity|]. split; [reflexivity|].
  split; [apply started_files | apply unsupported_answers].
Qed.

(** Images do not count: while the attached documents are within the limit,
    a selection without any file of a supported document extension is never
    refused, however many images it holds; each image is started on the
    image handler and no count error is shown. *)
Theorem images_do_not_count (fileList : list File.t) (st : State) :
  (length (List.filter (fun f => has_supported_extension K (AttachedFile.name f))
                       (attachedFiles st))
   + length (s3AttachedFiles st) <= MAX_ATTACHED_FILES K)%nat ->
  Forall (fun f => has_supported_extension K (File.name f) = false) fileList ->
  exists st' unsupported,
    onChangeFile K acceptMediaType fileList st
    = (inr (map EncodeAndPushImage
              (List.filter (fun f => has_accepted_media_type acceptMediaType (File.name f))
                           fileList)), st') /\
    snackbar st' = snackbar st ++ replicate unsupported UnsupportedFileFormat.
Proof.
  intros Hfit Hnone.
  assert (Hzero : List.filter (fun f => has_supported_extension K (File.name f)) fileList
                  = []).
  { induction Hnone as [|f l Hf _ IH]; [reflexivity|]. cbn. rewrite Hf. exact IH. }
  assert (Hroute : omap (route K acceptMediaType) fileList
                   = map EncodeAndPushImage
                       (List.filter
                          (fun f => has_accepted_media_type acceptMediaType (File.name f))
                          fileList)).
  { clear Hzero. induction Hnone as [|f l Hf _ IH]; [reflexivity|].
    change (omap (route K acceptMediaType) (f :: l))
      with (match route K acceptMediaType f with
            | Some y => y :: omap (route K acceptMediaType) l
            | None => omap (route K acceptMediaType) l
            end).
    cbn [List.filter]. unfold Frontend.route at 1. rewrite Hf.
    destruct (has_accepted_media_type acceptMediaType (File.name f)); cbn;
      rewrite IH; reflexivity. }
  unfold Frontend.onChangeFile, bind, gets. rewrite Hzero. cbn [length].
  rewrite Nat.add_0_r.
  destruct (Nat.ltb_spec (MAX_ATTACHED_FILES K)
              (length (List.filter (fun f => has_supported_extension K (AttachedFile.name f))
                                   (attachedFiles st))
               + length (s3AttachedFiles st))) as [Hover|_]; [lia|].
  assert (Hshown : omap (Selection.answered K acceptMediaType) fileList
                   = replicate
                       (length (List.filter
                                  (fun f => negb (has_accepted_media_type acceptMediaType
                                                    (File.name f))) fileList))
                       UnsupportedFileFormat).
  { clear Hzero Hroute Hfit. induction Hnone as [|f l Hf _ IH]; [reflexivity|].
    rewrite omap_cons. cbn [List.filter]. unfold Selection.answered at 1. rewrite Hf.
    destruct (has_accepted_media_type acceptMediaType (File.name f)); cbn;
      rewrite IH; reflexivity. }
  rewrite dispatch_run, Hroute, Hshown. eexists. eexists. split; reflexivity.
Qed.

End SelectionFacts.

(** * Keys and conversations *)

Section KeyFacts.

Import Stdlib.Strings.Ascii.

Lemma conversation_prefix_form (u c rest : string) :
  ("conversations/" +:+ u +:+ "/" +:+ c +:+ "/documents/") +:+ rest
  = "conversations/" +:+ (u +:+ String "/"%char (c +:+ String "/"%char ("documents/" +:+ rest))).
Proof.
  rewrite !string_app_assoc. reflexivity.
Qed.

Lemma temp_prefix_form (u rest : string) :
  ("conversations/" +:+ u +:+ "/temp/documents/") +:+ rest
  = "conversations/" +:+ (u +:+ String "/"%char ("temp" +:+ String "/"%char ("documents/" +:+ rest))).
Proof.
  rewrite !string_app_assoc. reflexivity.
Qed.

(** Whatever key the guard accepts for a user lies under that user's
    namespace. *)
Lemma allowed_key_form (u c key : string) :
  Broker.key_allowed u c key = true ->
  exists scope rest,
    key = "conversations/" +:+ (u +:+ String "/"%char (scope +:+ String "/"%char ("documents/" +:+ rest)))
    /\ (scope = c \/ scope = "temp").
Proof.
  intros H. apply key_allowed_iff in H. destruct H as [[rest ->]|[rest ->]].
  - exists c, rest. split; [apply conversation_prefix_form|left; reflexivity].
  - exists "temp", rest. split; [apply temp_prefix_form|right; reflexivity].
Qed.

(** No key is shared between users: a key the download guard accepts for
    one user is accepted for no other user, in any conversation, user ids
    being free of slashes. *)
Theorem keys_are_private (user1 user2 conversation1 conversation2 key : string) :
  Route.no_slash user1 = true -> Route.no_slash user2 = true ->
  Broker.key_allowed user1 conversation1 key = true ->
  Broker.key_allowed user2 conversation2 key = true ->
  user1 = user2.
Proof.
  intros H1 H2 K1 K2.
  destruct (allowed_key_form _ _ _ K1) as [s1 [r1 [E1 _]]].
  destruct (allowed_key_form _ _ _ K2) as [s2 [r2 [E2 _]]].
  rewrite E1 in E2. apply String.app_inj in E2.
  destruct (segment_inj _ _ _ _ H1 H2 E2) as [Hu _]. exact Hu.
Qed.

(** A key reachable from two different conversations of a user is a key of
    the temp scope: apart from temp uploads, the documents of a conversation
    are out of reach from every other conversation. *)
Theorem only_temp_keys_are_shared (user conversation1 conversation2 key : string) :
  Route.no_slash conversation1 = true -> Route.no_slash conversation2 = true ->
  conversation1 <> conversation2 ->
  Broker.key_allowed user conversation1 key = true ->
  Broker.key_allowed user conversation2 key = true ->
  exists rest, key = ("conversations/" +:+ user +:+ "/temp/documents/") +:+ rest.
Proof.
  intros H1 H2 Hne K1 K2.
  apply key_allowed_iff in K1. apply key_allowed_iff in K2.
  destruct K1 as [[r1 E1]|K1]; [|exact K1].
  destruct K2 as [[r2 E2]|K2]; [|exact K2].
  exfalso. apply Hne.
  rewrite E1, !conversation_prefix_form in E2.
  apply String.app_inj in E2. apply String.app_inj in E2.
  injection E2 as E2.
  destruct (segment_inj _ _ _ _ H1 H2 E2) as [Hc _]. exact Hc.
Qed.

(** What the access fix changed: a temp upload of the user was denied by
    the former guard in every conversation whose id has no slash and is not
    temp itself, and is accepted by the present guard there. *)
Theorem fix_opens_temp_uploads (user conversation file_name : string) :
  Route.no_slash conversation = true -> conversation <> "temp" ->
  Route.key_allowed_before user conversation
    (("conversations/" +:+ user +:+ "/temp/documents/") +:+ file_name) = false /\
  Broker.key_allowed user conversation
    (("conversations/" +:+ user +:+ "/temp/documents/") +:+ file_name) = true.
Proof.
  intros Hc Hne. split.
  - destruct (Route.key_allowed_before user conversation
                (("conversations/" +:+ user +:+ "/temp/documents/") +:+ file_name))
      eqn:Hb; [|reflexivity].
    exfalso. apply Hne. unfold Route.key_allowed_before in Hb.
    apply startswith_iff in Hb. destruct Hb as [rest Hb].
    rewrite !string_app_assoc in Hb.
    apply String.app_inj in Hb. apply String.app_inj in Hb.
    change (String "/"%char ("temp" +:+ String "/"%char ("documents/" +:+ file_name))
            = String "/"%char (conversation +:+ String "/"%char rest)) in Hb.
    injection Hb as Hb.
    assert (Ht : Route.no_slash "temp" = true) by reflexivity.
    destruct (segment_inj _ _ _ _ Ht Hc Hb) as [Heq _]. symmetry. exact Heq.
  - apply key_allowed_iff. right. exists file_name. reflexivity.
Qed.

End KeyFacts.

(** * Download URLs *)

Section UriFacts.

Import Stdlib.Strings.Ascii.
Import Frontend.

Lemma hexDigit_code (n : N) :
  (n < 16)%N ->
  N_of_ascii (Uri.hexDigit n) = if (n <? 10)%N then (48 + n)%N else (55 + n)%N.
Proof.
  intros Hn. unfold Uri.hexDigit.
  destruct (N.ltb_spec n 10); apply N_ascii_embedding; lia.
Qed.

Lemma hexDigit_inj (a b : N) :
  (a < 16)%N -> (b < 16)%N -> Uri.hexDigit a = Uri.hexDigit b -> a = b.
Proof.
  intros Ha Hb H. apply (f_equal N_of_ascii) in H.
  rewrite !hexDigit_code in H by assumption.
  destruct (N.ltb_spec a 10), (N.ltb_spec b 10); lia.
Qed.

Lemma hexDigit_unreserved (n : N) : (n < 16)%N -> Uri.uriUnreserved (Uri.hexDigit n) = true.
Proof.
  intros Hn. unfold Uri.uriUnreserved. rewrite hexDigit_code by exact Hn.
  destruct (N.ltb_spec n 10).
  - replace ((48 <=? 48 + n) && (48 + n <=? 57))%N with true;
      [rewrite orb_true_r; reflexivity|].
    symmetry. apply andb_true_iff. split; apply N.leb_le; lia.
  - replace ((65 <=? 55 + n) && (55 + n <=? 90))%N with true; [reflexivity|].
    symmetry. apply andb_true_iff. split; apply N.leb_le; lia.
Qed.

Lemma percentEncode_app (c : ascii) (rest : string) :
  Uri.percentEncode c +:+ rest
  = String "%"%char
      (String (Uri.hexDigit (N_of_ascii c / 16))
         (String (Uri.hexDigit (N_of_ascii c mod 16)) rest)).
Proof. reflexivity. Qed.

Lemma code_bounds (c : ascii) :
  (N_of_ascii c / 16 < 16)%N /\ (N_of_ascii c mod 16 < 16)%N.
Proof.
  pose proof (N_ascii_bounded c) as Hb. split.
  - apply N.Div0.div_lt_upper_bound. lia.
  - apply N.mod_lt. lia.
Qed.

Lemma percentEncode_inj (c d : ascii) (r q : string) :
  Uri.percentEncode c +:+ r = Uri.percentEncode d +:+ q -> c = d /\ r = q.
Proof.
  rewrite !percentEncode_app. intros H. injection H as Hhi Hlo Hr.
  destruct (code_bounds c) as [Hc1 Hc2]. destruct (code_bounds d) as [Hd1 Hd2].
  apply hexDigit_inj in Hhi; [|assumption|assumption].
  apply hexDigit_inj in Hlo; [|assumption|assumption].
  split; [|exact Hr].
  rewrite <- (ascii_N_embedding c), <- (ascii_N_embedding d). f_equal.
  rewrite (N.div_mod (N_of_ascii c) 16), (N.div_mod (N_of_ascii d) 16) by lia.
  rewrite Hhi, Hlo. reflexivity.
Qed.

Lemma encodeURIComponent_inj (a : string) :
  forall b, Uri.encodeURIComponent a = Uri.encodeURIComponent b -> a = b.
Proof.
  induction a as [|c a IH]; intros [|d b] H; cbn [Uri.encodeURIComponent] in H.
  - reflexivity.
  - destruct (Uri.uriUnreserved d); [discriminate|].
    rewrite percentEncode_app in H. discriminate.
  - destruct (Uri.uriUnreserved c); [discriminate|].
    rewrite percentEncode_app in H. discriminate.
  - destruct (Uri.uriUnreserved c) eqn:Hc, (Uri.uriUnreserved d) eqn:Hd.
    + injection H as -> H. f_equal. apply IH. exact H.
    + rewrite percentEncode_app in H. injection H as -> _.
      cbv in Hc. discriminate.
    + rewrite percentEncode_app in H. injection H as <- _.
      cbv in Hd. discriminate.
    + apply percentEncode_inj in H. destruct H as [-> H]. f_equal. apply IH. exact H.
Qed.

Lemma encoded_chars (s : string) :
  Forall (fun c => Uri.uriUnreserved c = true \/ c = "%"%char)
         (Uri.chars (Uri.encodeURIComponent s)).
Proof.
  induction s as [|c s IH]; [constructor|]. cbn [Uri.encodeURIComponent].
  destruct (Uri.uriUnreserved c) eqn:Hc.
  - constructor; [left; exact Hc|exact IH].
  - rewrite percentEncode_app. destruct (code_bounds c) as [H1 H2].
    constructor; [right; reflexivity|].
    constructor; [left; apply hexDigit_unreserved; exact H1|].
    constructor; [left; apply hexDigit_unreserved; exact H2|exact IH].
Qed.

(** The encoded key is one path segment: it is made of unreserved
    characters and percent signs only, so it holds no slash, question mark,
    hash or ampersand, whatever the key. *)
Theorem encoded_key_is_one_segment (s3Key : string) :
  Forall (fun c => Uri.uriUnreserved c = true \/ c = "%"%char)
         (Uri.chars (Uri.encodeURIComponent s3Key)) /\
  Forall (fun c => ~ In c ["/"; "?"; "#"; "&"]%char)
         (Uri.chars (Uri.encodeURIComponent s3Key)).
Proof.
  split; [apply encoded_chars|].
  eapply List.Forall_impl; [|apply encoded_chars].
  intros c [Hc| ->] Hin.
  - cbn in Hin. destruct Hin as [<-|[<-|[<-|[<-|[]]]]]; cbv in Hc; discriminate.
  - cbn in Hin. destruct Hin as [H|[H|[H|[H|[]]]]]; discriminate.
Qed.

Lemma encoded_no_slash (s : string) : Route.no_slash (Uri.encodeURIComponent s) = true.
Proof.
  unfold Route.no_slash. apply forallb_forall. intros c Hin.
  pose proof (encoded_chars s) as Hall. rewrite List.Forall_forall in Hall.
  destruct (Hall c Hin) as [Hc| ->]; [|reflexivity].
  destruct (Ascii.eqb c "/") eqn:E; [|reflexivity].
  apply Ascii.eqb_eq in E. subst c. cbv in Hc. discriminate.
Qed.

(** Different keys have different download URLs: within a conversation the
    URL determines the key. *)
Theorem download_url_determines_key (env : Env) (conversationId key1 key2 : string) :
  Uri.download_url env conversationId key1 = Uri.download_url env conversationId key2 ->
  key1 = key2.
Proof.
  unfold Uri.download_url. intros H.
  apply String.app_inj in H. apply String.app_inj in H.
  apply String.app_inj in H. apply String.app_inj in H.
  change (Uri.encodeURIComponent key1 +:+ String "/"%char "download"
          = Uri.encodeURIComponent key2 +:+ String "/"%char "download") in H.
  destruct (segment_inj _ _ _ _ (encoded_no_slash key1) (encoded_no_slash key2) H)
    as [He _].
  apply encodeURIComponent_inj. exact He.
Qed.

End UriFacts.

(** * Storage predicates *)

(** What is to be split is also to be stored in S3, where the splitter
    reads it: in the first version of the utilities always, in the second
    provided the storage threshold does not exceed the split threshold. *)
Theorem split_implies_s3_storage (S3_STORAGE_THRESHOLD_BYTES MAX_FILE_SIZE_BYTES : N)
    (file : Frontend.File.t) :
  (S3DocumentsV1.shouldSplitPDF file = true ->
   S3DocumentsV1.shouldUseS3Storage (Frontend.File.size file) = true) /\
  ((S3_STORAGE_THRESHOLD_BYTES <= MAX_FILE_SIZE_BYTES)%N ->
   S3DocumentsV2.shouldSplitPDF MAX_FILE_SIZE_BYTES file = true ->
   S3DocumentsV2.shouldUseS3Storage S3_STORAGE_THRESHOLD_BYTES (Frontend.File.size file)
   = true).
Proof.
  unfold S3DocumentsV1.shouldSplitPDF, S3DocumentsV1.shouldUseS3Storage,
    S3DocumentsV2.shouldSplitPDF, S3DocumentsV2.shouldUseS3Storage.
  split.
  - intros H. apply andb_true_iff in H. exact (proj2 H).
  - intros Hle H. apply andb_true_iff in H. destruct H as [_ H].
    apply N.ltb_lt in H. apply N.ltb_lt. lia.
Qed.

(** * The further properties on concrete cases *)

Example download_url_case :
  Uri.download_url Scenario.env "c1" "conversations/u1/temp/documents/a b.pdf"
  = "https://api.example/conversation/c1/documents/conversations%2Fu1%2Ftemp%2Fdocuments%2Fa%20b.pdf/download".
Proof. vm_compute. reflexivity. Qed.

(** An index before the start is clamped to the first entry. *)
Example splice1_cases :
  Store.splice1 1 [10; 20; 30]%nat = [10; 30]%nat /\
  Store.splice1 3 [10; 20; 30]%nat = [10; 20; 30]%nat /\
  Store.splice1 (-1) [10; 20; 30]%nat = [10; 20]%nat /\
  Store.splice1 (-10) [10; 20; 30]%nat = [20; 30]%nat.
Proof. repeat split; reflexivity. Qed.

Lemma attachments_sent_once_witness :
  Send.sendContent false true Cases.onSend_ok "hello" Cases.loaded_state
  = (inr EmptyString, Scenario.empty_state) /\
  Send.onSendArguments false true "again" Scenario.empty_state
  = {| Send.content := "again";
       Send.enableReasoning := true;
       Send.base64EncodedImages := None;
       Send.attachments := None;
       Send.s3Attachments := None |}.
Proof.
  split; [reflexivity|].
  exact (attachments_sent_once false true Cases.onSend_ok "hello" "again"
           Cases.loaded_state Scenario.empty_state EmptyString eq_refl).
Defined.

Lemma send_clears_on_success_witness :
  (exists st',
     Send.sendContent false true Cases.onSend_ok "hello" Cases.loaded_state
     = (inr EmptyString, st') /\
     Frontend.base64EncodedImages st' = [] /\ Frontend.attachedFiles st' = [] /\
     Frontend.s3AttachedFiles st' = [] /\
     Frontend.snackbar st' = [] /\ Frontend.calls st' = []) /\
  Send.sendContent false true Cases.onSend_failing "hello" Cases.loaded_state
  = (inl (Frontend.JsError "network down"), Cases.loaded_state).
Proof.
  split.
  - exact (proj1 (send_clears_on_success false true Cases.onSend_ok "hello"
                    Cases.loaded_state Cases.loaded_state) eq_refl).
  - exact (proj2 (send_clears_on_success false true Cases.onSend_failing "hello"
                    Cases.loaded_state Cases.loaded_state)
                 (Frontend.JsError "network down") eq_refl).
Defined.

(** Enter on a text with a loaded store: the store is emptied when
    [onSend] returns, and kept, with the error passed on, when it throws;
    Enter on an empty text leaves the loaded store as it is. *)
Lemma enter_sends_text_only_witness :
  Send.keypressListener false true None Cases.onSend_ok "Enter" false "hello"
    Cases.loaded_state
  = (inr (true, EmptyString), Scenario.empty_state) /\
  Send.keypressListener false true None Cases.onSend_failing "Enter" false "hello"
    Cases.loaded_state
  = (inl (Frontend.JsError "network down"), Cases.loaded_state) /\
  Send.keypressListener false true None Cases.onSend_ok "Enter" false EmptyString
    Cases.loaded_state
  = (inr (true, EmptyString), Cases.loaded_state).
Proof.
  assert (Hd : @None bool <> Some true) by discriminate.
  split; [|split].
  - exact (proj1 (enter_sends_text_only false true None Cases.onSend_ok "Enter" false
                    "hello" Cases.loaded_state)
                 _ _ eq_refl Hd eq_refl eq_refl).
  - exact (proj1 (enter_sends_text_only false true None Cases.onSend_failing "Enter" false
                    "hello" Cases.loaded_state)
                 _ _ eq_refl Hd eq_refl eq_refl).
  - exact (proj1 (proj2 (enter_sends_text_only false true None Cases.onSend_ok "Enter"
                           false EmptyString Cases.loaded_state)) eq_refl).
Defined.

Lemma remove_takes_out_one_witness :
  map Frontend.S3AttachedFile.name
      (Frontend.s3AttachedFiles (snd (Store.removeS3File 0 Cases.loaded_state)))
  = ["b.pdf"] /\
  S (length (Frontend.s3AttachedFiles (snd (Store.removeS3File 0 Cases.loaded_state))))
  = 2%nat /\
  Frontend.s3AttachedFiles (snd (Store.removeS3File 2 Cases.loaded_state))
  = Frontend.s3AttachedFiles Cases.loaded_state.
Proof.
  split; [reflexivity|]. split.
  - assert (H : (0 < length (Frontend.s3AttachedFiles Cases.loaded_state))%nat)
      by (cbn; lia).
    exact (proj1 (proj1 (remove_takes_out_one 0 Cases.loaded_state) H)).
  - assert (H : (length (Frontend.s3AttachedFiles Cases.loaded_state) <= 2)%nat)
      by (cbn; lia).
    exact (proj1 (proj2 (remove_takes_out_one 2 Cases.loaded_state)) H).
Defined.

(** A text file, a 30 MB PDF, a photo and an archive: three are handed to
    their handlers, the PDF is answered with the size error at once and the
    archive with the format error. *)
Lemma selected_files_accounted_witness :
  exists started st' shown,
    Frontend.onChangeFile Scenario.constants Scenario.acceptMediaType
      [Scenario.notes; Scenario.huge_pdf; Scenario.photo; Cases.archive]
      Scenario.empty_state
    = (inr started, st') /\
    Frontend.snackbar st' = Frontend.snackbar Scenario.empty_state ++ shown /\
    shown = [Frontend.FileSizeExceeded 22; Frontend.UnsupportedFileFormat] /\
    (length started + length (List.filter Selection.is_unsupported_format shown)
     = length [Scenario.notes; Scenario.huge_pdf; Scenario.photo; Cases.archive])%nat /\
    List.filter (fun m => negb (Selection.is_unsupported_format m)) shown
    = [Frontend.FileSizeExceeded 22] /\
    Frontend.same_attachments Scenario.empty_state st' /\
    Frontend.calls st' = Frontend.calls Scenario.empty_state.
Proof.
  apply (selected_files_accounted Scenario.constants Scenario.acceptMediaType
           [Scenario.notes; Scenario.huge_pdf; Scenario.photo; Cases.archive]
           Scenario.empty_state).
  vm_compute. lia.
Defined.

(** Of a text file, a photo and an archive, the first two are handed to a
    handler and the archive gets the format error. *)
Lemma chooser_and_dispatch_agree_witness :
  exists started st' shown,
    Frontend.onChangeFile Scenario.constants Scenario.acceptMediaType
      [Scenario.notes; Scenario.photo; Cases.archive] Scenario.empty_state
    = (inr started, st') /\
    Frontend.snackbar st' = Frontend.snackbar Scenario.empty_state ++ shown /\
    map Selection.file_of started = [Scenario.notes; Scenario.photo] /\
    List.filter Selection.is_unsupported_format shown = [Frontend.UnsupportedFileFormat].
Proof.
  apply (chooser_and_dispatch_agree Scenario.constants Scenario.acceptMediaType
           [Scenario.notes; Scenario.photo; Cases.archive] Scenario.empty_state).
  vm_compute. lia.
Defined.

Lemma images_do_not_count_witness :
  exists st' unsupported,
    Frontend.onChangeFile Scenario.constants Scenario.acceptMediaType
      [Scenario.photo; Scenario.photo] Scenario.full_state
    = (inr (map Frontend.EncodeAndPushImage
              (List.filter
                 (fun f => Frontend.has_accepted_media_type Scenario.acceptMediaType
                             (Frontend.File.name f))
                 [Scenario.photo; Scenario.photo])), st') /\
    Frontend.snackbar st'
    = Frontend.snackbar Scenario.full_state
      ++ replicate unsupported Frontend.UnsupportedFileFormat.
Proof.
  apply images_do_not_count.
  - vm_compute. lia.
  - repeat constructor.
Defined.

Lemma keys_are_private_witness :
  Broker.key_allowed "u1" "c1" "conversations/u1/temp/documents/a.pdf" = true /\
  Broker.key_allowed "u1" "c2" "conversations/u1/temp/documents/a.pdf" = true /\
  "u1" = "u1".
Proof.
  split; [reflexivity|]. split; [reflexivity|].
  exact (keys_are_private "u1" "u1" "c1" "c2" "conversations/u1/temp/documents/a.pdf"
           eq_refl eq_refl eq_refl eq_refl).
Defined.

Lemma only_temp_keys_are_shared_witness :
  "c1" <> "c2" /\
  exists rest,
    "conversations/u1/temp/documents/a.pdf"
    = ("conversations/" +:+ "u1" +:+ "/temp/documents/") +:+ rest.
Proof.
  assert (Hne : "c1" <> "c2") by discriminate.
  split; [exact Hne|].
  exact (only_temp_keys_are_shared "u1" "c1" "c2" "conversations/u1/temp/documents/a.pdf"
           eq_refl eq_refl Hne eq_refl eq_refl).
Defined.

Lemma fix_opens_temp_uploads_witness :
  Route.key_allowed_before "u1" "c1"
    (("conversations/" +:+ "u1" +:+ "/temp/documents/") +:+ "a.pdf") = false /\
  Broker.key_allowed "u1" "c1"
    (("conversations/" +:+ "u1" +:+ "/temp/documents/") +:+ "a.pdf") = true.
Proof.
  assert (Hne : "c1" <> "temp") by discriminate.
  exact (fix_opens_temp_uploads "u1" "c1" "a.pdf" eq_refl Hne).
Defined.

(** The proviso is needed: the former guard did accept a temp key in a
    conversation named temp/documents. *)
Example former_guard_slash_case :
  Route.no_slash "temp/documents" = false /\
  Route.key_allowed_before "u1" "temp/documents" "conversations/u1/temp/documents/a.pdf"
  = true.
Proof. split; reflexivity. Qed.

Lemma download_url_determines_key_witness :
  Uri.download_url Scenario.env "c1" "conversations/u1/c1/documents/a b.pdf"
  = Uri.download_url Scenario.env "c1" "conversations/u1/c1/documents/a b.pdf" /\
  "conversations/u1/c1/documents/a b.pdf" = "conversations/u1/c1/documents/a b.pdf".
Proof.
  split; [reflexivity|].
  exact (download_url_determines_key Scenario.env "c1"
           "conversations/u1/c1/documents/a b.pdf"
           "conversations/u1/c1/documents/a b.pdf" eq_refl).
Defined.

Lemma split_implies_s3_storage_witness :
  S3DocumentsV1.shouldSplitPDF Scenario.big_pdf = true /\
  S3DocumentsV1.shouldUseS3Storage (Frontend.File.size Scenario.big_pdf) = true /\
  S3DocumentsV2.shouldUseS3Storage 4718592 (Frontend.File.size Scenario.big_pdf) = true.
Proof.
  split; [reflexivity|]. split.
  - exact (proj1 (split_implies_s3_storage 4718592 4718592 Scenario.big_pdf) eq_refl).
  - refine (proj2 (split_implies_s3_storage 4718592 4718592 Scenario.big_pdf) _ eq_refl).
    lia.
Defined.

Lemma no_session_no_request_witness :
  Frontend.fetchAuthSession Cases.env_no_session
    (Frontend.calls Cases.loaded_state) = inl (Frontend.JsError "not signed in") /\
  exists st',
    Frontend.handleLargeFileUpload Scenario.constants Cases.env_no_session
      Scenario.new_chat Scenario.big_pdf true Cases.loaded_state = (inr tt, st') /\
    Frontend.calls st' = Frontend.calls Cases.loaded_state /\
    Frontend.same_attachments Cases.loaded_state st' /\
    Frontend.snackbar st'
    = Frontend.snackbar Cases.loaded_state ++ [Frontend.FileUploadFailed].
Proof.
  split; [reflexivity|].
  exact (proj2 (proj2 (no_session_no_request Scenario.constants Cases.env_no_session
                         Scenario.new_chat Scenario.big_pdf true Cases.loaded_state
                         (Frontend.JsError "not signed in") "temp"
                         {| Frontend.filename := "big.pdf";
                            Frontend.content_type := "application/pdf";
                            Frontend.file_size := 7000000 |}
                         {| Frontend.s3_key := "k"; Frontend.max_size_mb := None |}
                         eq_refl))).
Defined.
